(** * lla_to_ecef: a shallow embedding of [scitech_lab.py]

    The module converts WGS84 latitude/longitude/altitude samples to ECEF
    coordinates, differentiates the positions into a scalar speed series and
    answers interpolation queries that are printed and appended to a log.

    The numeric code is written once, over an interface of float64
    operations ([Float64]), and read in two ways:
    - [Binary64]: IEEE 754 binary64 as specified by the Standard Library's
      [SpecFloat] (round to nearest even, signed zeros, infinities, NaN);
      [sin], [cos] and [repr] come from the C library and the interpreter
      and are parameters of the instance ([Libm] is a reference sine and
      cosine for running it);
    - [RealArith]: exact real arithmetic, the idealisation in which the
      geodetic formulas are stated. *)

From Stdlib Require Import ZArith String Ascii List Bool Lia.
From Stdlib Require Import DecimalString.
From Stdlib Require Import Floats.SpecFloat.
From Stdlib Require Import Reals Lra.
Import ListNotations.

(** ** Float64 operations *)

(** What the program asks of its numbers.  [of_int] is the conversion
    Python applies to an [int] operand of a mixed operation, [of_decimal m k]
    is the float literal written [m * 10^-k] in the source, [float_repr] is
    [str] on a float. *)
Class Float64 (F : Type) : Type := {
  of_int : Z -> F;
  of_decimal : Z -> nat -> F;
  np_pi : F;
  np_nan : F;
  fadd : F -> F -> F;
  fsub : F -> F -> F;
  fmul : F -> F -> F;
  fdiv : F -> F -> F;
  np_sqrt : F -> F;
  np_sin : F -> F;
  np_cos : F -> F;
  fltb : F -> F -> bool;
  feqb : F -> F -> bool;
  float_repr : F -> string
}.

(** [x ** 2] on a float is the rounded product [x * x]. *)
Definition fsquare {F} `{Float64 F} (x : F) : F := fmul x x.

(** *** IEEE 754 binary64 *)

Module B64.

Definition prec : Z := 53.
Definition emax : Z := 1024.

Definition of_Z (z : Z) : spec_float := binary_normalize prec emax z 0 false.
Definition add := SFadd prec emax.
Definition sub := SFsub prec emax.
Definition mul := SFmul prec emax.
Definition div := SFdiv prec emax.
Definition sqrt := SFsqrt prec emax.

(** A decimal literal [m * 10^-k]: one correctly rounded division, which
    is the nearest double as long as [m] and [10^k] are below [2^53]; the
    literals of this program are. *)
Definition of_dec (m : Z) (k : nat) : spec_float :=
  div (of_Z m) (of_Z (10 ^ Z.of_nat k)).

Definition is_nan (x : spec_float) : bool :=
  match x with S754_nan => true | _ => false end.
Definition is_inf (x : spec_float) : bool :=
  match x with S754_infinity _ => true | _ => false end.
Definition inf_or_nan (x : spec_float) : bool := is_inf x || is_nan x.
Definition zero_or_nan (x : spec_float) : bool :=
  match x with S754_zero _ | S754_nan => true | _ => false end.

End B64.

(** [libm_sin] and [libm_cos] are the C library's functions behind
    [np.sin] and [np.cos]; [py_repr] is the interpreter's shortest
    round-trip printer behind [str] on a float. *)
Definition Binary64 (libm_sin libm_cos : spec_float -> spec_float)
  (py_repr : spec_float -> string) : Float64 spec_float := {|
  of_int := B64.of_Z;
  of_decimal := B64.of_dec;
  np_pi := B64.of_dec 3141592653589793 15;
  np_nan := S754_nan;
  fadd := B64.add;
  fsub := B64.sub;
  fmul := B64.mul;
  fdiv := B64.div;
  np_sqrt := B64.sqrt;
  np_sin := libm_sin;
  np_cos := libm_cos;
  fltb := SFltb;
  feqb := SFeqb;
  float_repr := py_repr
|}.

(** *** Exact reals *)

Definition Rltb (x y : R) : bool := if Rlt_dec x y then true else false.
Definition Reqb (x y : R) : bool := if Req_dec_T x y then true else false.

(** There is no NaN among the reals: the value that pads ragged series
    ([na]) and the printer are left open. *)
Definition RealArith (na : R) (repr : R -> string) : Float64 R := {|
  of_int := IZR;
  of_decimal := fun m k => (IZR m / IZR (10 ^ Z.of_nat k))%R;
  np_pi := PI;
  np_nan := na;
  fadd := Rplus;
  fsub := Rminus;
  fmul := Rmult;
  fdiv := Rdiv;
  np_sqrt := sqrt;
  np_sin := sin;
  np_cos := cos;
  fltb := Rltb;
  feqb := Reqb;
  float_repr := repr
|}.

(** ** Series *)

Section Series.
Context {F : Type} `{Float64 F}.

(** A float64 column with the default index [0 .. n-1]. *)
Definition Series := list F.

(** A binary operation on two series aligns them on the index; a label
    present on one side only yields NaN. *)
Fixpoint align2 (f : F -> F -> F) (s1 s2 : Series) : Series :=
  match s1, s2 with
  | a :: s1', b :: s2' => f a b :: align2 f s1' s2'
  | [], _ => map (fun _ => np_nan) s2
  | _, [] => map (fun _ => np_nan) s1
  end.

(** ** [lla_to_ecef] *)

(** An [int] operand of a mixed operation is converted with [of_int];
    [A ** 2] is integer arithmetic; a scalar combined with a series maps
    over it, two series are aligned. *)
Definition lla_to_ecef (lat lon alt : Series) : Series * Series * Series :=
  let deg_2_rads := fdiv np_pi (of_int 180) in
  let lat := map (fmul deg_2_rads) lat in
  let lon := map (fmul deg_2_rads) lon in
  let alt := map (fmul (of_int 1000)) alt in
  let cos_lat := map np_cos lat in
  let cos_lon := map np_cos lon in
  let sin_lat := map np_sin lat in
  let A := 6378137%Z in
  let B := of_decimal 635675231424518 8 in
  let H := alt in
  let E1 := np_sqrt (fdiv (fsub (of_int (A ^ 2)) (fsquare B)) (of_int (A ^ 2))) in
  let E2 := fsquare E1 in
  let N := map (fdiv (of_int A))
             (map np_sqrt
                (map (fsub (of_int 1))
                   (map (fmul E2) (map fsquare sin_lat)))) in
  let X := align2 fmul (align2 fmul (align2 fadd N H) cos_lat) cos_lon in
  let Y := align2 fmul (align2 fmul (align2 fadd N H) cos_lat) (map np_sin lon) in
  let Z := align2 fmul
             (align2 fadd (map (fun n => fmul n (fsub (of_int 1) E2)) N) H)
             sin_lat in
  (X, Y, Z).

End Series.

(** ** Exceptions *)

Inductive exn : Type :=
  | FileNotFoundError   (* the path does not exist *)
  | ParserError         (* pandas cannot parse the file *)
  | AttributeError      (* the table has no such column *)
  | KeyError            (* a series has no such label *)
  | IndexError          (* an array index is out of bounds *)
  | TypeError
  | ValueError          (* shapes that do not broadcast, bad breakpoints *)
  | DomainError.        (* a query outside the interpolation range *)

Inductive result (T : Type) : Type :=
  | Ok (v : T)
  | Raise (e : exn).
Arguments Ok {T} v.
Arguments Raise {T} e.

Definition rbind {T U} (c : result T) (k : T -> result U) : result U :=
  match c with
  | Ok v => k v
  | Raise e => Raise e
  end.

Declare Scope py_scope.
Delimit Scope py_scope with py.
Notation "x <- c ;; k" := (rbind c (fun x => k))
  (at level 61, c at next level, right associativity) : py_scope.

(** ** [cal_ecef_velocity] *)

Section Velocity.
Context {F : Type} `{Float64 F}.
Local Open Scope py_scope.

(** [s[i]] on a series with the default index. *)
Definition getitem (s : list F) (i : nat) : result F :=
  match nth_error s i with
  | Some a => Ok a
  | None => Raise KeyError
  end.

(** [v[i] = a] on an array. *)
Fixpoint setitem (v : list F) (i : nat) (a : F) : result (list F) :=
  match v, i with
  | [], _ => Raise IndexError
  | _ :: v', O => Ok (a :: v')
  | b :: v', S i' => v'' <- setitem v' i' a ;; Ok (b :: v'')
  end.

Definition np_zeros (n : nat) : list F := repeat (of_int 0) n.

(** The body of [for i in range(1, len(position))]. *)
Definition calc_velocity_step (time position : list F)
    (acc : result (list F)) (i : nat) : result (list F) :=
  v <- acc ;;
  p_i <- getitem position i ;;
  p_h <- getitem position (i - 1) ;;
  t_i <- getitem time i ;;
  t_h <- getitem time (i - 1) ;;
  setitem v i (fdiv (fsub p_i p_h) (fsub t_i t_h)).

(** [v = np.zeros(n)], then the loop over [range(1, len(position))]. *)
Definition calc_velocity (time position : list F) : result (list F) :=
  let n := length position in
  let v := np_zeros n in
  fold_left (calc_velocity_step time position) (seq 1 (n - 1)) (Ok v).

(** Elementwise operation on two arrays, with numpy's broadcasting of a
    one-element array. *)
Fixpoint zip_with (f : F -> F -> F) (a b : list F) : list F :=
  match a, b with
  | x :: a', y :: b' => f x y :: zip_with f a' b'
  | _, _ => []
  end.

Definition np_binop (f : F -> F -> F) (a b : list F) : result (list F) :=
  if Nat.eqb (length a) (length b) then Ok (zip_with f a b)
  else match a, b with
       | [x], _ => Ok (map (f x) b)
       | _, [y] => Ok (map (fun x => f x y) a)
       | _, _ => Raise ValueError
       end.

(** [for item in items: v_xyz.append(calc_velocity(t, item))] *)
Fixpoint velocity_components (t : list F) (items : list (list F))
    (v_xyz : list (list F)) : result (list (list F)) :=
  match items with
  | [] => Ok v_xyz
  | item :: items' =>
      v <- calc_velocity t item ;;
      velocity_components t items' (v_xyz ++ [v])
  end.

Definition cal_ecef_velocity (t x y z : list F) : result (list F) :=
  let items := [x; y; z] in
  v_xyz <- velocity_components t items [] ;;
  match v_xyz with
  | [vx; vy; vz] =>
      s <- np_binop fadd (map fsquare vx) (map fsquare vy) ;;
      s' <- np_binop fadd s (map fsquare vz) ;;
      Ok (map np_sqrt s')
  | _ => Raise IndexError
  end.

End Velocity.

(** ** Python objects that reach the query functions *)

Inductive pyobject (F : Type) : Type :=
  | PyNone
  | PyInt (z : Z)
  | PyFloat (x : F).
Arguments PyNone {F}.
Arguments PyInt {F} z.
Arguments PyFloat {F} x.

Definition nl : string := String (ascii_of_nat 10) EmptyString.

Section Objects.
Context {F : Type} `{Float64 F}.

(** [str(o)] *)
Definition str (o : pyobject F) : string :=
  match o with
  | PyNone => "None"
  | PyInt z => NilZero.string_of_int (Z.to_int z)
  | PyFloat x => float_repr x
  end.

(** The float an object stands for in a numeric array. *)
Definition as_float (o : pyobject F) : result F :=
  match o with
  | PyNone => Raise TypeError
  | PyInt z => Ok (of_int z)
  | PyFloat x => Ok x
  end.

End Objects.

(** ** The interpolant *)

Section Interpolation.
Context {F : Type} `{Float64 F}.
Local Open Scope py_scope.

(** Modelled from the spec: the interpolant is its captured breakpoints,
    times [xp] and speeds [fp]. *)
Record interpolant : Type := { xp : list F; fp : list F }.

(** Modelled from the spec: [scipy.interpolate.interp1d] is a library
    class, not part of the repository.  Following sections 3 and 4.4 of
    the specification it captures the (time, speed) breakpoints, is
    piecewise linear between them, returns the recorded value at a
    breakpoint and fails with [DomainError] for a query outside
    [[min(time), max(time)]]; breakpoints are taken in the order given
    (strictly increasing times are assumed).  A series without
    breakpoints, or whose numbers of times and of speeds differ, is
    refused when the interpolant is built. *)
Definition interp1d (x y : list F) : result interpolant :=
  match x with
  | [] => Raise ValueError
  | _ :: _ =>
      if Nat.eqb (length x) (length y) then Ok {| xp := x; fp := y |}
      else Raise ValueError
  end.

(** The lesser and the greater of two times; folded over the breakpoints
    they give [min(time)] and [max(time)]. *)
Definition fmin (a b : F) : F := if fltb b a then b else a.
Definition fmax (a b : F) : F := if fltb a b then b else a.

(** Modelled from the spec: the value of the piecewise-linear function
    through the breakpoints at [q]: on the segment [[x0, x1)] that holds
    [q] it is [y0] at [x0] and [slope * (q - x0) + y0] after it; on the
    last breakpoint it is the last value. *)
Fixpoint linear (xs ys : list F) (q : F) : F :=
  match xs, ys with
  | x0 :: xs', y0 :: ys' =>
      match xs', ys' with
      | x1 :: _, y1 :: _ =>
          if fltb q x1 then
            if feqb q x0 then y0
            else fadd (fmul (fdiv (fsub y1 y0) (fsub x1 x0)) (fsub q x0)) y0
          else linear xs' ys' q
      | _, _ => y0
      end
  | _, _ => np_nan
  end.

(** Modelled from the spec: [f(x_new).item()], the out-of-bounds check
    against the least and the greatest breakpoint time, then the
    evaluation. *)
Definition interp_call (f : interpolant) (x_new : pyobject F) : result F :=
  q <- as_float x_new ;;
  match xp f with
  | [] => Raise ValueError
  | x0 :: xs =>
      if fltb q (fold_left fmin xs x0) || fltb (fold_left fmax xs x0) q
      then Raise DomainError
      else Ok (linear (xp f) (fp f) q)
  end.

End Interpolation.

(** ** The world: input files, the log file and the console *)

Section World.
Context {F : Type} `{Float64 F}.

(** A table keyed by column name, as [pandas.read_csv] returns it. *)
Definition DataFrame : Type := list (string * list F).

(** What [pandas.read_csv] makes of a path. *)
Inductive file : Type :=
  | Missing
  | Garbled
  | Table (df : DataFrame).

(** The input files as pandas sees them, the log file and the console.
    The log is kept apart from the input files: reading 'stdout.txt' back
    as a table is not modelled. *)
Record world : Type := {
  disk : string -> file;
  stdout_txt : string;   (* the contents of 'stdout.txt' *)
  console : string       (* what was written to standard output *)
}.

Definition IO (T : Type) : Type := world -> result T * world.

Definition iobind {T U} (c : IO T) (k : T -> IO U) : IO U :=
  fun w =>
    match c w with
    | (Ok v, w') => k v w'
    | (Raise e, w') => (Raise e, w')
    end.

Definition lift {T} (c : result T) : IO T := fun w => (c, w).

Definition pd_read_csv (filename : string) : IO DataFrame :=
  fun w =>
    match disk w filename with
    | Missing => (Raise FileNotFoundError, w)
    | Garbled => (Raise ParserError, w)
    | Table df => (Ok df, w)
    end.

(** [df.name] *)
Definition getattr (df : DataFrame) (name : string) : result (list F) :=
  match find (fun c => String.eqb (fst c) name) df with
  | Some c => Ok (snd c)
  | None => Raise AttributeError
  end.

(** [file = open('stdout.txt', 'a'); file.write(output); file.close()] *)
Definition append_stdout_txt (output : string) : IO unit :=
  fun w =>
    (Ok tt, {| disk := disk w;
               stdout_txt := (stdout_txt w ++ output)%string;
               console := console w |}).

(** [print(output)]: the text, then a newline; the call returns [None]. *)
Definition print (output : string) : IO (pyobject F) :=
  fun w =>
    (Ok PyNone, {| disk := disk w;
                   stdout_txt := stdout_txt w;
                   console := (console w ++ output ++ nl)%string |}).

End World.

Arguments DataFrame F : clear implicits.
Arguments file F : clear implicits.
Arguments world F : clear implicits.
Arguments IO F T : clear implicits.

Declare Scope io_scope.
Delimit Scope io_scope with io.
Notation "x <- c ;; k" := (iobind c (fun x => k))
  (at level 61, c at next level, right associativity) : io_scope.
Notation "c ;;; k" := (iobind c (fun _ => k))
  (at level 61, right associativity) : io_scope.

(** ** [load_data], [interpolate_src_velocity], [interpolate_new_velocity] *)

Section Queries.
Context {F : Type} `{Float64 F}.
Local Open Scope io_scope.

Definition load_data (filename : string) : IO F (DataFrame F) :=
  df <- pd_read_csv filename ;;
  lift (Ok df).

(** The report line of a query. *)
Definition report (time_request : pyobject F) (value : F) : string :=
  (nl ++ "Velocity(time=" ++ str time_request ++ "seconds) = "
      ++ str (PyFloat value) ++ " m/s" ++ nl)%string.

Definition interpolate_src_velocity (time velocity : list F)
    (time_request : pyobject F) : IO F (pyobject F) :=
  f <- lift (interp1d time velocity) ;;
  y <- lift (interp_call f time_request) ;;
  let output := report time_request y in
  append_stdout_txt output ;;;
  print output.

Definition interpolate_new_velocity (filename : string)
    (time_request : pyobject F) : IO F (pyobject F) :=
  df <- load_data filename ;;
  lat <- lift (getattr df "latitude") ;;
  lon <- lift (getattr df "longitude") ;;
  alt <- lift (getattr df "altitude") ;;
  let '(X, Y, Z) := lla_to_ecef lat lon alt in
  t <- lift (getattr df "time") ;;
  V <- lift (cal_ecef_velocity t X Y Z) ;;
  t' <- lift (getattr df "time") ;;
  f <- lift (interp1d t' V) ;;
  y <- lift (interp_call f time_request) ;;
  let output := report time_request y in
  append_stdout_txt output ;;;
  print output.

(** The composition the specification compares [interpolate_new_velocity]
    with: Loader, Converter and Estimator run on the file, then the
    series variant is called on the resulting series. *)
Definition pipeline_then_src (filename : string)
    (time_request : pyobject F) : IO F (pyobject F) :=
  df <- load_data filename ;;
  lat <- lift (getattr df "latitude") ;;
  lon <- lift (getattr df "longitude") ;;
  alt <- lift (getattr df "altitude") ;;
  let '(X, Y, Z) := lla_to_ecef lat lon alt in
  t <- lift (getattr df "time") ;;
  V <- lift (cal_ecef_velocity t X Y Z) ;;
  t' <- lift (getattr df "time") ;;
  interpolate_src_velocity t' V time_request.

End Queries.

(** ** The WGS84 formulas of the specification, over the reals *)

Module WGS84.
Local Open Scope R_scope.

(** Semi-major axis [A = 6378137] and semi-minor axis
    [B = 6356752.31424518], in meters. *)
Definition a : R := 6378137.
Definition b : R := 635675231424518 / 100000000.

Definition e2 : R := (a ^ 2 - b ^ 2) / a ^ 2.

Definition radians (deg : R) : R := deg * (PI / 180).

(** Prime-vertical radius of curvature at a latitude in radians. *)
Definition N (lat : R) : R := a / sqrt (1 - e2 * sin lat ^ 2).

(** ECEF coordinates of a point given in degrees and kilometers. *)
Definition ecef (lat_deg lon_deg alt_km : R) : R * R * R :=
  let lat := radians lat_deg in
  let lon := radians lon_deg in
  let H := 1000 * alt_km in
  ((N lat + H) * cos lat * cos lon,
   (N lat + H) * cos lat * sin lon,
   (N lat * (1 - e2) + H) * sin lat).

End WGS84.

(** The eccentricity term [(A**2 - B**2) / A**2] as the code evaluates it
    over the reals; [E1] is its square root. *)
Definition code_e : R :=
  ((IZR (6378137 ^ 2)
    - 635675231424518 / IZR (10 ^ Z.of_nat 8)
      * (635675231424518 / IZR (10 ^ Z.of_nat 8)))
   / IZR (6378137 ^ 2))%R.

(** ** The converter row by row *)

Section ConverterSpec.
Context {F : Type} `{Float64 F}.

(** One row of [lla_to_ecef]: the operations of the code on the scalars
    of one index, in the order the code applies them. *)
Definition ecef_row (lat lon alt : F) : F * F * F :=
  let deg_2_rads := fdiv np_pi (of_int 180) in
  let lat := fmul deg_2_rads lat in
  let lon := fmul deg_2_rads lon in
  let H := fmul (of_int 1000) alt in
  let E1 := np_sqrt (fdiv (fsub (of_int (6378137 ^ 2))
                                (fsquare (of_decimal 635675231424518 8)))
                          (of_int (6378137 ^ 2))) in
  let E2 := fsquare E1 in
  let N := fdiv (of_int 6378137)
                (np_sqrt (fsub (of_int 1) (fmul E2 (fsquare (np_sin lat))))) in
  (fmul (fmul (fadd N H) (np_cos lat)) (np_cos lon),
   fmul (fmul (fadd N H) (np_cos lat)) (np_sin lon),
   fmul (fadd (fmul N (fsub (of_int 1) E2)) H) (np_sin lat)).

End ConverterSpec.

(** ** The WGS84 formulas, sample by sample *)

Section FormulaSpec.
Context {F : Type} `{Float64 F}.

(** The eccentricity term as the quotient [(A^2 - B^2) / A^2], each
    operation a float64 operation. *)
Definition quotient_E2 : F :=
  fdiv (fsub (of_int (6378137 ^ 2)) (fsquare (of_decimal 635675231424518 8)))
       (of_int (6378137 ^ 2)).

(** The eccentricity term as the square of the first eccentricity:
    [E1 = sqrt ((A^2 - B^2) / A^2)], [E2 = E1^2]. *)
Definition squared_E1 : F := fsquare (np_sqrt quotient_E2).

(** The formulas for one sample, the eccentricity term [E2] left open:
    the angles in radians, [H = 1000 alt],
    [N = A / sqrt (1 - E2 sin^2 lat)], [X = (N + H) cos lat cos lon],
    [Y = (N + H) cos lat sin lon] and [Z = (N (1 - E2) + H) sin lat], each
    operation a float64 operation, in the order written. *)
Definition wgs84_formula (E2 : F) (lat_deg lon_deg alt_km : F) : F * F * F :=
  let lat := fmul (fdiv np_pi (of_int 180)) lat_deg in
  let lon := fmul (fdiv np_pi (of_int 180)) lon_deg in
  let H := fmul (of_int 1000) alt_km in
  let N := fdiv (of_int 6378137)
                (np_sqrt (fsub (of_int 1) (fmul E2 (fsquare (np_sin lat))))) in
  (fmul (fmul (fadd N H) (np_cos lat)) (np_cos lon),
   fmul (fmul (fadd N H) (np_cos lat)) (np_sin lon),
   fmul (fadd (fmul N (fsub (of_int 1) E2)) H) (np_sin lat)).

End FormulaSpec.

(** ** The estimator in closed form *)

Section EstimatorSpec.
Context {F : Type} `{Float64 F}.
Variable d : F.

(** The backward difference at index [i]. *)
Definition backward_difference (time position : list F) (i : nat) : F :=
  fdiv (fsub (nth i position d) (nth (i - 1) position d))
       (fsub (nth i time d) (nth (i - 1) time d)).

(** One component of the velocity: zero at index 0, the backward
    difference after it. *)
Definition component_velocity (time position : list F) (i : nat) : F :=
  if Nat.eqb i 0 then of_int 0 else backward_difference time position i.

(** The Euclidean combination of the three components at index [i]. *)
Definition speed_at (t x y z : list F) (i : nat) : F :=
  np_sqrt (fadd (fadd (fsquare (component_velocity t x i))
                      (fsquare (component_velocity t y i)))
                (fsquare (component_velocity t z i))).

End EstimatorSpec.

(** ** Breakpoints in increasing order, and the loader contract *)

Section Contracts.
Context {F : Type} `{Float64 F}.

Fixpoint strictly_increasing (xs : list F) : bool :=
  match xs with
  | x0 :: ((x1 :: _) as xs') => fltb x0 x1 && strictly_increasing xs'
  | _ => true
  end.

Definition has_column (df : DataFrame F) (name : string) : bool :=
  match getattr df name with
  | Ok _ => true
  | Raise _ => false
  end.

Definition has_required_columns (df : DataFrame F) : bool :=
  forallb (has_column df) ["time"; "latitude"; "longitude"; "altitude"]%string.

(** The loader contract in the words of the specification: a path that is
    missing, or whose file is not a table with the four columns, makes
    [load_data] fail with [FileNotFound] or [ParseError]. *)
Definition loader_contract (w : world F) (path : string) : Prop :=
  match disk w path with
  | Table df => has_required_columns df = false
  | _ => True
  end ->
  fst (load_data path w) = Raise FileNotFoundError \/
  fst (load_data path w) = Raise ParserError.

End Contracts.

(** ** A reference sine and cosine *)

(** The C library is not part of the program.  For running the converter
    this module computes the sine and the cosine of a double to well over
    300 bits in fixed point and rounds once, which gives the correctly
    rounded double unless the exact value lies within [2^-300] of a
    rounding boundary:
    - [pi/2] to 1500 bits by Machin's formula, so that the reduction
      modulo [pi/2] is exact enough for every double;
    - the Taylor series on the reduced argument, at most [pi/4];
    - [sin x = x] and [cos x = 1] below [2^-27], where they round so. *)
Module Libm.
Local Open Scope Z_scope.

Definition frac : Z := 320.
Definition wide : Z := 1500.

(** [2^wide * atan (1/n)], alternating series. *)
Fixpoint atan_inv_series (fuel : nat) (n2 k power acc : Z) : Z :=
  match fuel with
  | O => acc
  | S fuel' =>
      let term := power / (2 * k + 1) in
      atan_inv_series fuel' n2 (k + 1) (power / n2)
        (if Z.even k then acc + term else acc - term)
  end.

Definition atan_inv (n : Z) : Z :=
  atan_inv_series 700 (n * n) 0 (2 ^ wide / n) 0.

(** [2^wide * pi/2], from [pi/4 = 4 atan (1/5) - atan (1/239)]. *)
Definition half_pi_wide : Z :=
  Eval vm_compute in 2 * (4 * atan_inv 5 - atan_inv 239).

Definition mulfx (a b : Z) : Z := Z.shiftr (a * b) frac.

(** Sum of the terms [-term * r^2 / ((j+1)(j+2))] from [term] on. *)
Fixpoint taylor (fuel : nat) (r2 j term acc : Z) : Z :=
  match fuel with
  | O => acc
  | S fuel' =>
      let term' := - (mulfx term r2 / ((j + 1) * (j + 2))) in
      taylor fuel' r2 (j + 2) term' (acc + term')
  end.

Definition sin_fx (r : Z) : Z := taylor 60 (mulfx r r) 1 r r.
Definition cos_fx (r : Z) : Z := taylor 60 (mulfx r r) 0 (2 ^ frac) (2 ^ frac).

(** [|x| = k * pi/2 + r] with [|r| <= pi/4]: the quadrant [k mod 4] and
    [2^frac * r]. *)
Definition reduce (m : positive) (e : Z) : Z * Z :=
  let X := Z.shiftl (Zpos m) (e + wide) in
  let k := (2 * X + half_pi_wide) / (2 * half_pi_wide) in
  (k mod 4, Z.shiftr (X - k * half_pi_wide) (wide - frac)).

Definition round (v : Z) : spec_float :=
  binary_normalize 53 1024 v (- frac) false.

Definition tiny (m : positive) (e : Z) : bool :=
  Z.log2 (Zpos m) + 1 + e <=? -27.

Definition sin (x : spec_float) : spec_float :=
  match x with
  | S754_nan | S754_infinity _ => S754_nan
  | S754_zero _ => x
  | S754_finite s m e =>
      if tiny m e then x
      else
        let '(q, r) := reduce m e in
        let v := match q with
                 | 0 => sin_fx r
                 | 1 => cos_fx r
                 | 2 => - sin_fx r
                 | _ => - cos_fx r
                 end in
        round (if s then - v else v)
  end.

Definition cos (x : spec_float) : spec_float :=
  match x with
  | S754_nan | S754_infinity _ => S754_nan
  | S754_zero _ => B64.of_Z 1
  | S754_finite s m e =>
      if tiny m e then B64.of_Z 1
      else
        let '(q, r) := reduce m e in
        round match q with
              | 0 => cos_fx r
              | 1 => - sin_fx r
              | 2 => - cos_fx r
              | _ => sin_fx r
              end
  end.

End Libm.

(** ** The special points in binary64 *)

(** The double nearest [pi/2]; it is [deg_2_rads * 90]. *)
Definition half_pi64 : spec_float := S754_finite false 7074237752028440 (-52).

(** The residue [3.9186209248144711e-10] left in X at the pole. *)
Definition pole_X : spec_float := S754_finite false 7579715221264593 (-84).

(** What a correctly rounding C library returns at the angles of the two
    special points: [sin 0 = 0], [cos 0 = 1], [sin half_pi64 = 1] and
    [cos half_pi64 = 6.123233995736766e-17], the distance from
    [half_pi64] to [pi/2]. *)
Definition libm_at_special_points
    (libm_sin libm_cos : spec_float -> spec_float) : Prop :=
  libm_sin (S754_zero false) = S754_zero false /\
  libm_cos (S754_zero false) = B64.of_Z 1 /\
  libm_sin half_pi64 = B64.of_Z 1 /\
  libm_cos half_pi64 = S754_finite false 4967757600021511 (-106).

(** The special points in the words of the claim: X = A, Y = 0, Z = 0 at
    (0, 0, 0) and X = 0, Y = 0, Z = B at (90, 0, 0), with [==] on
    floats. *)
Definition special_points_claim : Prop :=
  forall libm_sin libm_cos py_repr,
    libm_at_special_points libm_sin libm_cos ->
    let ops := Binary64 libm_sin libm_cos py_repr in
    let zero := B64.of_Z 0 in
    (exists x y z,
       @lla_to_ecef _ ops [zero] [zero] [zero] = ([x], [y], [z]) /\
       SFeqb x (B64.of_Z 6378137) = true /\ SFeqb y zero = true /\
       SFeqb z zero = true) /\
    (exists x y z,
       @lla_to_ecef _ ops [B64.of_Z 90] [zero] [zero] = ([x], [y], [z]) /\
       SFeqb x zero = true /\ SFeqb y zero = true /\
       SFeqb z (B64.of_dec 635675231424518 8) = true).

(** ** A concrete binary64 instance for running examples *)

Module Demo.
Local Open Scope string_scope.

Definition dec (z : Z) : string := NilZero.string_of_int (Z.to_int z).

(** Agrees with Python's [repr] on integral doubles below [10^16], on
    signed zeros, infinities and NaN; any other value is shown as the
    exact binary fraction [m*2**e]. *)
Definition repr_small (x : spec_float) : string :=
  match x with
  | S754_nan => "nan"
  | S754_infinity false => "inf"
  | S754_infinity true => "-inf"
  | S754_zero false => "0.0"
  | S754_zero true => "-0.0"
  | S754_finite s m e =>
      let sign := if s then "-" else EmptyString in
      let whole z := (sign ++ dec z ++ ".0")%string in
      match e with
      | Zneg p =>
          if Z.eqb (Z.modulo (Zpos m) (2 ^ Zpos p)) 0
          then whole (Z.div (Zpos m) (2 ^ Zpos p))
          else (sign ++ dec (Zpos m) ++ "*2**" ++ dec e)%string
      | _ => whole (Zpos m * 2 ^ e)%Z
      end
  end.

Definition b64 : Float64 spec_float := Binary64 Libm.sin Libm.cos repr_small.

Definition fl (z : Z) : spec_float := B64.of_Z z.

Definition empty_world : world spec_float :=
  {| disk := fun _ => Missing; stdout_txt := EmptyString;
     console := EmptyString |}.

(** Two samples ten seconds apart whose positions differ by (30, 40, 0). *)
Definition t2 : list spec_float := [fl 10; fl 20].
Definition x2 : list spec_float := [fl 100; fl 130].
Definition y2 : list spec_float := [fl 200; fl 240].
Definition z2 : list spec_float := [fl 7; fl 7].

(** The speeds of these samples, and a series with a repeated time. *)
Definition v2 : list spec_float := [fl 0; fl 5].
Definition t_repeat : list spec_float := [fl 10; fl 10].

(** Three times, a three-sample and a one-sample component. *)
Definition t3 : list spec_float := [fl 10; fl 20; fl 30].
Definition x3 : list spec_float := [fl 100; fl 130; fl 190].
Definition z3 : list spec_float := [fl 7; fl 7; fl 15].

(** A file that parses, without the columns the pipeline needs. *)
Definition other_table : DataFrame spec_float := [("a"%string, [fl 1])].
Definition other_world : world spec_float :=
  {| disk := fun path => if String.eqb path "other.csv" then Table other_table
                         else Missing;
     stdout_txt := EmptyString; console := EmptyString |}.

End Demo.

(** ** The query loop of [test_basic.py] *)

Section Script.
Context {F : Type} `{Float64 F}.
Local Open Scope io_scope.

(** [for item in items: interpolate_src_velocity(df.time, V, item)]; the
    value each call returns is dropped. *)
Fixpoint query_loop (time velocity : list F) (items : list (pyobject F))
    : IO F unit :=
  match items with
  | [] => lift (Ok tt)
  | item :: items' =>
      interpolate_src_velocity time velocity item ;;;
      query_loop time velocity items'
  end.

(** The world once [output] has been appended to the log and printed. *)
Definition log_report (w : world F) (output : string) : world F :=
  {| disk := disk w;
     stdout_txt := (stdout_txt w ++ output)%string;
     console := (console w ++ output ++ nl)%string |}.

(** The reports of the queries [items] whose interpolated speeds are
    [values]. *)
Definition reports (items : list (pyobject F)) (values : list F)
    : list string :=
  map (fun iv => report (fst iv) (snd iv)) (combine items values).

End Script.

(** ** Classes of binary64 values *)

(** NaN, or a value whose sign bit is clear: [+0], a positive number or
    [+inf]. *)
Definition sign_clear_or_nan (x : spec_float) : bool :=
  match x with
  | S754_nan => true
  | S754_zero s | S754_infinity s | S754_finite s _ _ => negb s
  end.

(** A zero or a finite number. *)
Definition zero_or_finite (x : spec_float) : bool :=
  match x with
  | S754_zero _ | S754_finite _ _ _ => true
  | _ => false
  end.

(** [deg_2_rads * deg] in binary64: the angle of a latitude or longitude
    given in degrees. *)
Definition radians64 : spec_float -> spec_float :=
  B64.mul (B64.div (B64.of_dec 3141592653589793 15) (B64.of_Z 180)).

(** ** The formulas with the quotient for E2, in binary64 *)

(** The latitude 81.15 degrees and its angle
    [deg_2_rads * 81.15 = 1.4163347371043026]. *)
Definition sample_latitude : spec_float := B64.of_dec 8115 2.
Definition sample_angle : spec_float :=
  S754_finite false 6378604373078977 (-52).

(** What a correctly rounding C library returns at the angles of the
    sample (81.15, 0, 0): [sin 0 = 0], [cos 0 = 1],
    [sin sample_angle = 0.9880944998464434] and
    [cos sample_angle = 0.15384816987279004].  The exact sine and cosine
    lie 0.24 and 0.04 units in the last place from these doubles. *)
Definition libm_at_sample_point
    (libm_sin libm_cos : spec_float -> spec_float) : Prop :=
  libm_sin (S754_zero false) = S754_zero false /\
  libm_cos (S754_zero false) = B64.of_Z 1 /\
  libm_sin sample_angle = S754_finite false 8899964042630558 (-53) /\
  libm_cos sample_angle = S754_finite false 5542964484085840 (-55).

(** Two results are the same value when they are the same double or
    compare equal with [==]. *)
Definition same_value (x y : spec_float) : Prop :=
  x = y \/ SFeqb x y = true.

(** The formulas in the words of the claim, with [E2 = (A^2 - B^2) / A^2],
    read in float64: on series of the same length N >= 1 every X, Y and Z
    is the value of its formula. *)
Definition formula_claim : Prop :=
  forall libm_sin libm_cos py_repr,
    libm_at_sample_point libm_sin libm_cos ->
    let ops := Binary64 libm_sin libm_cos py_repr in
    forall lat lon alt : list spec_float,
      length lat = length lon -> length lat = length alt ->
      1 <= length lat ->
      let '(X, Y, Z) := @lla_to_ecef _ ops lat lon alt in
      length X = length lat /\ length Y = length lat /\
      length Z = length lat /\
      forall i, i < length lat ->
        let '(x, y, z) :=
          @wgs84_formula _ ops (@quotient_E2 _ ops) (nth i lat S754_nan)
            (nth i lon S754_nan) (nth i alt S754_nan) in
        same_value (nth i X S754_nan) x /\
        same_value (nth i Y S754_nan) y /\
        same_value (nth i Z S754_nan) z.

(** * Properties *)

(** ** Series and alignment *)

Section SeriesFacts.
Context {F : Type} `{Float64 F}.

Lemma align2_length (f : F -> F -> F) (s1 s2 : list F) :
  length s1 = length s2 -> length (align2 f s1 s2) = length s1.
Proof.
  revert s2; induction s1 as [|a s1 IH]; intros [|b s2] E; simpl in *;
    try discriminate; auto.
Qed.

Lemma align2_nth (f : F -> F -> F) (d : F) (s1 s2 : list F) (i : nat) :
  length s1 = length s2 -> i < length s1 ->
  nth i (align2 f s1 s2) d = f (nth i s1 d) (nth i s2 d).
Proof.
  revert s2 i; induction s1 as [|a s1 IH]; intros [|b s2] [|i] E L;
    simpl in *; try discriminate; try lia; auto.
  apply IH; lia.
Qed.

Lemma map_nth_in (g : F -> F) (d : F) (s : list F) (i : nat) :
  i < length s -> nth i (map g s) d = g (nth i s d).
Proof.
  intros L. rewrite (nth_indep _ d (g d)) by (rewrite length_map; exact L).
  apply map_nth.
Qed.

(** The series operations of the converter act index by index. *)
Lemma lla_to_ecef_rows (d : F) (lat lon alt : list F) :
  length lat = length lon -> length lat = length alt ->
  let '(X, Y, Z) := lla_to_ecef lat lon alt in
  length X = length lat /\ length Y = length lat /\ length Z = length lat /\
  forall i, i < length lat ->
    (nth i X d, nth i Y d, nth i Z d)
    = ecef_row (nth i lat d) (nth i lon d) (nth i alt d).
Proof.
  intros Elon Ealt. unfold lla_to_ecef.
  repeat split.
  1-3: repeat (rewrite ?align2_length, ?length_map; try congruence).
  intros i Hi.
  assert (Hlon : i < length lon) by lia.
  assert (Halt : i < length alt) by lia.
  rewrite !(align2_nth _ d);
    repeat (rewrite ?align2_length, ?length_map; try congruence; try lia).
  rewrite !map_nth_in by (rewrite ?length_map; lia).
  reflexivity.
Qed.

End SeriesFacts.

(** ** The converter over the reals *)

Section RealConverter.
Variable na : R.
Variable repr : R -> string.
Local Open Scope R_scope.
Local Abbreviation ops := (RealArith na repr).

Lemma code_e_eq : code_e = WGS84.e2.
Proof.
  unfold code_e, WGS84.e2, WGS84.a, WGS84.b.
  replace (IZR (6378137 ^ 2)) with (6378137 * 6378137)
    by (rewrite <- mult_IZR; reflexivity).
  replace (IZR (10 ^ Z.of_nat 8)) with 100000000 by reflexivity.
  field.
Qed.

Lemma e2_bounds : 0 < WGS84.e2 < 1.
Proof.
  unfold WGS84.e2, WGS84.a, WGS84.b. split.
  - apply Rdiv_lt_0_compat; lra.
  - apply Rmult_lt_reg_r with (r := 6378137 ^ 2); [lra|].
    unfold Rdiv. rewrite Rmult_assoc, Rinv_l by lra. lra.
Qed.

(** [E2 = E1 ** 2] is the eccentricity term itself: the square root is
    taken of a positive number. *)
Lemma E2_real : sqrt code_e * sqrt code_e = WGS84.e2.
Proof.
  rewrite sqrt_sqrt; [apply code_e_eq|].
  rewrite code_e_eq. apply Rlt_le, e2_bounds.
Qed.

(** Over the reals a row of the code is the formula of the
    specification. *)
Lemma ecef_row_real (lat lon alt : R) :
  @ecef_row R ops lat lon alt = WGS84.ecef lat lon alt.
Proof.
  unfold ecef_row, fsquare.
  cbn [RealArith of_int of_decimal np_pi fadd fsub fmul fdiv np_sqrt np_sin
       np_cos].
  fold code_e. rewrite E2_real.
  unfold WGS84.ecef, WGS84.N, WGS84.radians, WGS84.a.
  rewrite (Rmult_comm lat), (Rmult_comm lon).
  cbn [pow]. rewrite Rmult_1_r. reflexivity.
Qed.

Lemma lla_point (lat lon alt : R) :
  @lla_to_ecef R ops [lat] [lon] [alt]
  = (let '(x, y, z) := WGS84.ecef lat lon alt in ([x], [y], [z])).
Proof.
  rewrite <- ecef_row_real. reflexivity.
Qed.

(** In exact arithmetic the converter computes the WGS84 formulas with
    [E2 = (A^2-B^2)/A^2]: the idealisation that float64 follows up to
    rounding. *)
Lemma lla_to_ecef_formula_real (lat lon alt : list R) :
  length lat = length lon -> length lat = length alt ->
  (1 <= length lat)%nat ->
  let '(X, Y, Z) := @lla_to_ecef R ops lat lon alt in
  length X = length lat /\ length Y = length lat /\ length Z = length lat /\
  forall i, (i < length lat)%nat ->
    (nth i X 0, nth i Y 0, nth i Z 0)
    = WGS84.ecef (nth i lat 0) (nth i lon 0) (nth i alt 0).
Proof.
  intros Elon Ealt _.
  pose proof (@lla_to_ecef_rows R ops 0 lat lon alt Elon Ealt) as Rows.
  destruct (@lla_to_ecef R ops lat lon alt) as [[X Y] Z].
  destruct Rows as (LX & LY & LZ & Rows).
  repeat split; try assumption.
  intros i Hi. rewrite (Rows i Hi). apply ecef_row_real.
Qed.

Lemma radians_0 : WGS84.radians 0 = 0.
Proof. unfold WGS84.radians. apply Rmult_0_l. Qed.

Lemma radians_90 : WGS84.radians 90 = PI / 2.
Proof. unfold WGS84.radians. field. Qed.

Lemma N_equator : WGS84.N 0 = WGS84.a.
Proof.
  unfold WGS84.N. rewrite sin_0.
  replace (1 - WGS84.e2 * 0 ^ 2) with 1 by ring.
  rewrite sqrt_1. field.
Qed.

Lemma one_minus_e2 : 1 - WGS84.e2 = Rsqr (WGS84.b / WGS84.a).
Proof. unfold WGS84.e2, Rsqr, WGS84.a, WGS84.b. field. Qed.

Lemma N_pole : WGS84.N (PI / 2) = WGS84.a * WGS84.a / WGS84.b.
Proof.
  unfold WGS84.N. rewrite sin_PI2.
  replace (1 - WGS84.e2 * 1 ^ 2) with (1 - WGS84.e2) by ring.
  rewrite one_minus_e2, sqrt_Rsqr.
  - unfold WGS84.a, WGS84.b. field.
  - unfold WGS84.a, WGS84.b. apply Rlt_le, Rdiv_lt_0_compat; lra.
Qed.

(** In exact arithmetic the special points are exact: (0, 0, 0) maps to
    (A, 0, 0) and (90, 0, 0) to (0, 0, B). *)
Lemma lla_to_ecef_special_points_real :
  @lla_to_ecef R ops [0] [0] [0] = ([6378137], [0], [0]) /\
  @lla_to_ecef R ops [90] [0] [0]
  = ([0], [0], [635675231424518 / 100000000]).
Proof.
  rewrite !lla_point. unfold WGS84.ecef.
  rewrite radians_0, radians_90, N_equator, N_pole, one_minus_e2.
  rewrite sin_0, cos_0, sin_PI2, cos_PI2.
  unfold Rsqr, WGS84.a, WGS84.b.
  split;
    repeat match goal with
           | |- (_, _) = (_, _) => f_equal
           | |- [_] = [_] => f_equal
           end; field.
Qed.

End RealConverter.

(** ** The velocity loop *)

Section EstimatorFacts.
Context {F : Type} `{Float64 F}.
Variable d : F.

Lemma getitem_nth (s : list F) (i : nat) :
  i < length s -> getitem s i = Ok (nth i s d).
Proof.
  intros L. unfold getitem.
  destruct (nth_error s i) as [a|] eqn:E.
  - now rewrite (nth_error_nth _ _ d E).
  - apply nth_error_None in E; lia.
Qed.

Lemma setitem_spec (v : list F) (i : nat) (a : F) :
  i < length v ->
  exists v', setitem v i a = Ok v' /\ length v' = length v /\
             forall j, nth j v' d = if Nat.eqb j i then a else nth j v d.
Proof.
  revert i; induction v as [|b v IH]; intros [|i] L; simpl in *; try lia.
  - exists (a :: v). repeat split. intros [|j]; reflexivity.
  - destruct (IH i) as (v' & E & Lv & N); [lia|].
    rewrite E. simpl. exists (b :: v'). repeat split.
    + simpl; congruence.
    + intros [|j]; simpl; [reflexivity|apply N].
Qed.

(** What the array holds after the iterations [1 .. k] of the loop. *)
Lemma calc_velocity_loop (time position : list F) (k : nat) :
  length position <= length time -> k < length position ->
  exists v,
    fold_left (calc_velocity_step time position) (seq 1 k)
              (Ok (np_zeros (length position))) = Ok v /\
    length v = length position /\
    forall j, nth j v d =
              if (1 <=? j) && (j <=? k)
              then backward_difference d time position j
              else nth j (np_zeros (length position)) d.
Proof.
  intros Hlen. induction k as [|k IH]; intros Lk.
  - exists (np_zeros (length position)). repeat split.
    + apply repeat_length.
    + intros j. destruct (1 <=? j) eqn:E1; [|reflexivity].
      destruct (j <=? 0) eqn:E2; [|reflexivity].
      apply Nat.leb_le in E1, E2. lia.
  - destruct IH as (v & E & Lv & N); [lia|].
    rewrite seq_S, fold_left_app, E.
    change (1 + k) with (S k). cbn [fold_left].
    unfold calc_velocity_step. cbn [rbind].
    replace (S k - 1) with k by lia.
    rewrite !getitem_nth by lia. cbn [rbind].
    destruct (setitem_spec v (S k)
                (fdiv (fsub (nth (S k) position d) (nth k position d))
                      (fsub (nth (S k) time d) (nth k time d))))
      as (v' & E' & Lv' & N'); [lia|].
    exists v'. repeat split; [exact E'|congruence|].
    intros j. rewrite N', N.
    destruct (Nat.eqb_spec j (S k)) as [->|Hne].
    + replace ((1 <=? S k) && (S k <=? S k)) with true.
      * unfold backward_difference. now replace (S k - 1) with k by lia.
      * symmetry. apply andb_true_iff. split; apply Nat.leb_le; lia.
    + replace (j <=? S k) with (j <=? k); [reflexivity|].
      destruct (Nat.leb_spec j k), (Nat.leb_spec j (S k)); try reflexivity; lia.
Qed.

Lemma calc_velocity_spec (time position : list F) :
  length position <= length time ->
  exists v,
    calc_velocity time position = Ok v /\
    length v = length position /\
    forall i, i < length position ->
      nth i v d = component_velocity d time position i.
Proof.
  intros Hlen. unfold calc_velocity, component_velocity.
  destruct position as [|p position].
  - exists []. repeat split. intros i L; simpl in L; lia.
  - destruct (calc_velocity_loop time (p :: position)
                (length (p :: position) - 1))
      as (v & E & Lv & N); [exact Hlen|simpl; lia|].
    exists v. repeat split; [exact E|exact Lv|].
    intros i L. rewrite N.
    destruct i as [|i].
    + simpl. reflexivity.
    + replace ((1 <=? S i) && (S i <=? length (p :: position) - 1)) with true;
        [reflexivity|].
      symmetry. apply andb_true_iff. split; apply Nat.leb_le; simpl in *; lia.
Qed.

Lemma zip_with_length (f : F -> F -> F) (a b : list F) :
  length a = length b -> length (zip_with f a b) = length a.
Proof.
  revert b; induction a as [|x a IH]; intros [|y b] E; simpl in *;
    try discriminate; auto.
Qed.

Lemma zip_with_nth (f : F -> F -> F) (a b : list F) (i : nat) :
  length a = length b -> i < length a ->
  nth i (zip_with f a b) d = f (nth i a d) (nth i b d).
Proof.
  revert b i; induction a as [|x a IH]; intros [|y b] [|i] E L;
    simpl in *; try discriminate; try lia; auto.
  apply IH; lia.
Qed.

Lemma np_binop_same_length (f : F -> F -> F) (a b : list F) :
  length a = length b -> np_binop f a b = Ok (zip_with f a b).
Proof.
  intros E. unfold np_binop. now rewrite E, Nat.eqb_refl.
Qed.

Ltac solve_len :=
  repeat first [rewrite length_map | rewrite zip_with_length]; lia.

(** The estimator returns, and its result is [speed_at] at every index. *)
Lemma cal_ecef_velocity_spec (t x y z : list F) :
  length x = length y -> length y = length z -> length x <= length t ->
  exists v,
    cal_ecef_velocity t x y z = Ok v /\
    length v = length x /\
    forall i, i < length x -> nth i v d = speed_at d t x y z i.
Proof.
  intros Exy Eyz Hlen.
  destruct (calc_velocity_spec t x) as (vx & Ex & Lx & Nx); [lia|].
  destruct (calc_velocity_spec t y) as (vy & Ey & Ly & Ny); [lia|].
  destruct (calc_velocity_spec t z) as (vz & Ez & Lz & Nz); [lia|].
  unfold cal_ecef_velocity, velocity_components.
  rewrite Ex, Ey, Ez. cbn [rbind app].
  rewrite np_binop_same_length by solve_len. cbn [rbind].
  rewrite np_binop_same_length by solve_len. cbn [rbind].
  eexists. split; [reflexivity|]. split; [solve_len|].
  intros i L. unfold speed_at.
  rewrite map_nth_in by solve_len.
  rewrite !zip_with_nth by solve_len.
  rewrite !map_nth_in by lia.
  rewrite Nx, Ny, Nz by lia. reflexivity.
Qed.

End EstimatorFacts.

(** ** Special values of binary64 *)

Lemma SFeqb_finite s1 m1 e1 s2 m2 e2 :
  SFeqb (S754_finite s1 m1 e1) (S754_finite s2 m2 e2) = true ->
  s1 = s2 /\ m1 = m2 /\ e1 = e2.
Proof.
  unfold SFeqb, SFcompare.
  destruct s1, s2; try discriminate;
    destruct (Z.compare e1 e2) eqn:Ee; try discriminate;
    destruct (Pos.compare_cont Eq m1 m2) eqn:Em; try discriminate;
    intros _; apply Z.compare_eq in Ee; apply Pos.compare_eq in Em; auto.
Qed.

(** The difference of two equal floats is a zero, or NaN for infinities. *)
Lemma sub_equal (a b : spec_float) :
  SFeqb a b = true -> B64.zero_or_nan (B64.sub a b) = true.
Proof.
  destruct a as [sa|sa| |sa ma ea], b as [sb|sb| |sb mb eb];
    try (intros E; discriminate E);
    try (intros _; destruct sa, sb; reflexivity);
    try (destruct sa, sb; intros E; (discriminate E || reflexivity)).
  intros E. apply SFeqb_finite in E. destruct E as (-> & -> & ->).
  unfold B64.sub, SFsub. rewrite Z.sub_diag. reflexivity.
Qed.

Lemma div_zero_or_nan (a b : spec_float) :
  B64.zero_or_nan b = true -> B64.inf_or_nan (B64.div a b) = true.
Proof.
  destruct b as [sb|sb| |sb mb eb]; try discriminate; intros _;
    destruct a as [sa|sa| |sa ma ea]; reflexivity.
Qed.

Lemma mul_inf_or_nan (a : spec_float) :
  B64.inf_or_nan a = true -> B64.inf_or_nan (B64.mul a a) = true.
Proof. destruct a as [sa|sa| |sa ma ea]; try discriminate; reflexivity. Qed.

Lemma add_inf_or_nan (a b : spec_float) :
  B64.inf_or_nan a = true -> B64.inf_or_nan b = true ->
  B64.inf_or_nan (B64.add a b) = true.
Proof.
  destruct a as [sa|sa| |sa ma ea], b as [sb|sb| |sb mb eb];
    try discriminate; intros _ _; try reflexivity.
  destruct sa, sb; reflexivity.
Qed.

Lemma sqrt_inf_or_nan (a : spec_float) :
  B64.inf_or_nan a = true -> B64.inf_or_nan (B64.sqrt a) = true.
Proof.
  destruct a as [sa|sa| |sa ma ea]; try discriminate; intros _;
    try destruct sa; reflexivity.
Qed.

(** ** The estimator in binary64 *)

Section Binary64Estimator.
Variables libm_sin libm_cos : spec_float -> spec_float.
Variable py_repr : spec_float -> string.
Local Abbreviation ops := (Binary64 libm_sin libm_cos py_repr).

Lemma speed_at_0 (t x y z : list spec_float) (d : spec_float) :
  @speed_at _ ops d t x y z 0 = S754_zero false.
Proof. reflexivity. Qed.

(** C2: on a time series and three component series of the same length
    N >= 1 the estimator returns N speeds; speed[0] is exactly 0 whatever
    the input, and for i >= 1 speed[i] = sqrt(Vx[i]^2 + Vy[i]^2 + Vz[i]^2)
    with V[i] = (component[i] - component[i-1]) / (time[i] - time[i-1]). *)
Theorem cal_ecef_velocity_speed (t x y z : list spec_float) :
  length x = length y -> length y = length z -> length x <= length t ->
  1 <= length x ->
  exists speed,
    @cal_ecef_velocity _ ops t x y z = Ok speed /\
    length speed = length x /\
    nth 0 speed S754_nan = S754_zero false /\
    forall i, 1 <= i < length x ->
      let V (c : list spec_float) :=
        B64.div (B64.sub (nth i c S754_nan) (nth (i - 1) c S754_nan))
                (B64.sub (nth i t S754_nan) (nth (i - 1) t S754_nan)) in
      nth i speed S754_nan
      = B64.sqrt (B64.add (B64.add (B64.mul (V x) (V x)) (B64.mul (V y) (V y)))
                          (B64.mul (V z) (V z))).
Proof.
  intros Exy Eyz Et Hn.
  destruct (@cal_ecef_velocity_spec _ ops S754_nan t x y z)
    as (speed & E & L & N); [lia..|].
  exists speed. repeat split; [exact E|exact L| |].
  - rewrite N by lia. apply speed_at_0.
  - intros i Hi V. rewrite N by lia.
    unfold speed_at, component_velocity.
    destruct (Nat.eqb_spec i 0) as [->|_]; [lia|reflexivity].
Qed.

(** C3: when time[i] = time[i-1] for some i >= 1 the estimator raises
    nothing: it returns the speed series, whose value at index i is an
    infinity or NaN. *)
Theorem equal_timestamps_inf_or_nan (t x y z : list spec_float) (i : nat) :
  length x = length y -> length y = length z -> length x <= length t ->
  1 <= i < length x ->
  SFeqb (nth i t S754_nan) (nth (i - 1) t S754_nan) = true ->
  exists speed,
    @cal_ecef_velocity _ ops t x y z = Ok speed /\
    length speed = length x /\
    B64.is_inf (nth i speed S754_nan) || B64.is_nan (nth i speed S754_nan)
    = true.
Proof.
  intros Exy Eyz Et Hi Eq.
  destruct (@cal_ecef_velocity_spec _ ops S754_nan t x y z)
    as (speed & E & L & N); [lia..|].
  exists speed. repeat split; [exact E|exact L|].
  rewrite N by lia. unfold speed_at, component_velocity.
  destruct (Nat.eqb_spec i 0) as [->|_]; [lia|].
  apply sub_equal in Eq.
  apply sqrt_inf_or_nan.
  repeat apply add_inf_or_nan; apply mul_inf_or_nan;
    unfold backward_difference; now apply div_zero_or_nan.
Qed.

End Binary64Estimator.

Lemma cal_ecef_velocity_speed_witness :
  length Demo.x2 = length Demo.y2 /\ length Demo.y2 = length Demo.z2 /\
  length Demo.x2 <= length Demo.t2 /\ 1 <= length Demo.x2 /\
  exists speed,
    @cal_ecef_velocity _ Demo.b64 Demo.t2 Demo.x2 Demo.y2 Demo.z2 = Ok speed /\
    length speed = length Demo.x2 /\
    nth 0 speed S754_nan = S754_zero false /\
    forall i, 1 <= i < length Demo.x2 ->
      let V (c : list spec_float) :=
        B64.div (B64.sub (nth i c S754_nan) (nth (i - 1) c S754_nan))
                (B64.sub (nth i Demo.t2 S754_nan) (nth (i - 1) Demo.t2 S754_nan)) in
      nth i speed S754_nan
      = B64.sqrt (B64.add (B64.add (B64.mul (V Demo.x2) (V Demo.x2))
                                   (B64.mul (V Demo.y2) (V Demo.y2)))
                          (B64.mul (V Demo.z2) (V Demo.z2))).
Proof.
  split; [reflexivity|]. split; [reflexivity|]. split; [simpl; lia|].
  split; [simpl; lia|].
  apply (cal_ecef_velocity_speed Libm.sin Libm.cos Demo.repr_small
           Demo.t2 Demo.x2 Demo.y2 Demo.z2);
    [reflexivity|reflexivity|simpl; lia|simpl; lia].
Defined.

Lemma equal_timestamps_inf_or_nan_witness :
  length Demo.x2 = length Demo.y2 /\ length Demo.y2 = length Demo.z2 /\
  length Demo.x2 <= length Demo.t_repeat /\ 1 <= 1 < length Demo.x2 /\
  SFeqb (nth 1 Demo.t_repeat S754_nan) (nth (1 - 1) Demo.t_repeat S754_nan)
  = true /\
  exists speed,
    @cal_ecef_velocity _ Demo.b64 Demo.t_repeat Demo.x2 Demo.y2 Demo.z2
    = Ok speed /\
    length speed = length Demo.x2 /\
    B64.is_inf (nth 1 speed S754_nan) || B64.is_nan (nth 1 speed S754_nan)
    = true.
Proof.
  split; [reflexivity|]. split; [reflexivity|]. split; [simpl; lia|].
  split; [simpl; lia|]. split; [vm_compute; reflexivity|].
  apply (equal_timestamps_inf_or_nan Libm.sin Libm.cos
           Demo.repr_small Demo.t_repeat Demo.x2 Demo.y2 Demo.z2 1);
    [reflexivity|reflexivity|simpl; lia|simpl; lia|vm_compute; reflexivity].
Defined.

(** Two samples ten seconds apart, (30, 40, 0) meters apart: 5 m/s. *)
Example speed_of_two_samples :
  @cal_ecef_velocity _ Demo.b64 Demo.t2 Demo.x2 Demo.y2 Demo.z2
  = Ok [S754_zero false; Demo.fl 5].
Proof. vm_compute. reflexivity. Qed.

(** With a repeated timestamp the x and y components are infinite and the
    z component, which does not move, is 0/0: the speed is NaN. *)
Example speed_of_repeated_time :
  @cal_ecef_velocity _ Demo.b64 Demo.t_repeat Demo.x2 Demo.y2 Demo.z2
  = Ok [S754_zero false; S754_nan].
Proof. vm_compute. reflexivity. Qed.

(** ** The order of binary64 *)

Ltac cases_compare :=
  repeat match goal with
         | H : context [Z.compare ?a ?b] |- _ =>
             destruct (Z.compare_spec a b); try discriminate H
         | |- context [Z.compare ?a ?b] =>
             destruct (Z.compare_spec a b)
         | H : context [Pos.compare_cont Eq ?a ?b] |- _ =>
             change (Pos.compare_cont Eq a b) with (Pos.compare a b) in *;
             destruct (Pos.compare_spec a b); try discriminate H
         | |- context [Pos.compare_cont Eq ?a ?b] =>
             change (Pos.compare_cont Eq a b) with (Pos.compare a b) in *;
             destruct (Pos.compare_spec a b)
         end.

Lemma SFltb_trans (a b c : spec_float) :
  SFltb a b = true -> SFltb b c = true -> SFltb a c = true.
Proof.
  unfold SFltb, SFcompare.
  destruct a as [sa|sa| |sa ma ea], b as [sb|sb| |sb mb eb],
           c as [sc|sc| |sc mc ec];
    try destruct sa; try destruct sb; try destruct sc;
    try discriminate; try reflexivity;
    intros Hab Hbc; cbn [CompOpp] in *; cases_compare;
    subst; try reflexivity; try discriminate; try lia.
Qed.

Lemma SFltb_asym (a b : spec_float) :
  SFltb a b = true -> SFltb b a = false.
Proof.
  unfold SFltb, SFcompare.
  destruct a as [sa|sa| |sa ma ea], b as [sb|sb| |sb mb eb];
    try destruct sa; try destruct sb;
    try discriminate; try reflexivity;
    intros Hab; cbn [CompOpp] in *; cases_compare;
    subst; try reflexivity; try discriminate; try lia.
Qed.

Lemma SFeqb_refl (a : spec_float) : a <> S754_nan -> SFeqb a a = true.
Proof.
  unfold SFeqb, SFcompare. destruct a as [sa|sa| |sa ma ea]; intros N;
    try destruct sa; try reflexivity; try congruence;
    rewrite Z.compare_refl;
    change (Pos.compare_cont Eq ma ma) with (Pos.compare ma ma);
    rewrite Pos.compare_refl; reflexivity.
Qed.

Lemma SFltb_not_nan (a b : spec_float) :
  SFltb a b = true -> a <> S754_nan /\ b <> S754_nan.
Proof.
  unfold SFltb, SFcompare.
  destruct a as [sa|sa| |sa ma ea], b as [sb|sb| |sb mb eb];
    try discriminate; intros _; split; discriminate.
Qed.

(** ** The interpolant on increasing breakpoints *)

Section OrderedBreakpoints.
Context {F : Type} `{Float64 F}.
Variable d : F.

Hypothesis fltb_trans :
  forall a b c : F, fltb a b = true -> fltb b c = true -> fltb a c = true.
Hypothesis fltb_asym : forall a b : F, fltb a b = true -> fltb b a = false.
Hypothesis fltb_feqb : forall a b : F, fltb a b = true -> feqb a a = true.

Lemma fltb_irrefl (a : F) : fltb a a = false.
Proof.
  destruct (fltb a a) eqn:E; [|reflexivity].
  now rewrite (fltb_asym _ _ E) in E.
Qed.

Lemma increasing_tail (x0 : F) (xs : list F) :
  strictly_increasing (x0 :: xs) = true -> strictly_increasing xs = true.
Proof.
  destruct xs as [|x1 xs]; [reflexivity|].
  cbn [strictly_increasing]. intros E. now apply andb_true_iff in E.
Qed.

Lemma increasing_head (x0 : F) (xs : list F) (y : F) :
  strictly_increasing (x0 :: xs) = true -> In y xs -> fltb x0 y = true.
Proof.
  revert x0; induction xs as [|x1 xs IH]; intros x0 Inc I; [destruct I|].
  cbn [strictly_increasing] in Inc. apply andb_true_iff in Inc.
  destruct Inc as [Inc01 Inc1]. destruct I as [<-|I]; [exact Inc01|].
  apply fltb_trans with x1; [exact Inc01|]. now apply IH.
Qed.

(** The least breakpoint of an increasing series is its first. *)
Lemma fold_fmin_first (x0 : F) (xs : list F) :
  (forall y, In y xs -> fltb y x0 = false) -> fold_left fmin xs x0 = x0.
Proof.
  induction xs as [|x1 xs IH]; intros A; [reflexivity|].
  cbn [fold_left].
  replace (fmin x0 x1) with x0
    by (unfold fmin; rewrite (A x1) by (now left); reflexivity).
  apply IH. intros y I. apply A. now right.
Qed.

(** No breakpoint is above the greatest one. *)
Lemma fold_fmax_upper (x0 : F) (xs : list F) (q : F) :
  strictly_increasing (x0 :: xs) = true ->
  (q = x0 \/ fltb q x0 = true) \/ In q xs ->
  q = fold_left fmax xs x0 \/ fltb q (fold_left fmax xs x0) = true.
Proof.
  revert x0; induction xs as [|x1 xs IH]; intros x0 Inc Q.
  - destruct Q as [Q|[]]. exact Q.
  - pose proof (increasing_tail _ _ Inc) as Inc1.
    assert (Inc01 : fltb x0 x1 = true)
      by (apply (increasing_head _ _ _ Inc); now left).
    cbn [fold_left].
    replace (fmax x0 x1) with x1 by (unfold fmax; now rewrite Inc01).
    apply IH; [exact Inc1|].
    destruct Q as [[->|Q]|[<-|Q]].
    + left; right; exact Inc01.
    + left; right; now apply fltb_trans with x0.
    + left; left; reflexivity.
    + right; exact Q.
Qed.

Lemma linear_step (x0 x1 : F) (xs : list F) (y0 y1 : F) (ys : list F) (q : F) :
  linear (x0 :: x1 :: xs) (y0 :: y1 :: ys) q
  = if fltb q x1 then
      if feqb q x0 then y0
      else fadd (fmul (fdiv (fsub y1 y0) (fsub x1 x0)) (fsub q x0)) y0
    else linear (x1 :: xs) (y1 :: ys) q.
Proof. reflexivity. Qed.

Lemma linear_at_breakpoint (xs ys : list F) (i : nat) :
  strictly_increasing xs = true -> length xs = length ys -> i < length xs ->
  linear xs ys (nth i xs d) = nth i ys d.
Proof.
  revert ys i; induction xs as [|x0 xs IH]; intros [|y0 ys] i Inc L Hi;
    simpl in L, Hi; try discriminate; try lia.
  destruct xs as [|x1 xs], ys as [|y1 ys]; try discriminate.
  - destruct i as [|i]; [reflexivity|simpl in Hi; lia].
  - pose proof (increasing_tail _ _ Inc) as Inc1.
    assert (Inc01 : fltb x0 x1 = true)
      by (apply (increasing_head _ _ _ Inc); now left).
    destruct i as [|i].
    + cbn [nth]. now rewrite linear_step, Inc01, (fltb_feqb _ _ Inc01).
    + change (nth (S i) (x0 :: x1 :: xs) d) with (nth i (x1 :: xs) d).
      change (nth (S i) (y0 :: y1 :: ys) d) with (nth i (y1 :: ys) d).
      assert (Q : fltb (nth i (x1 :: xs) d) x1 = false).
      { destruct i as [|i]; [apply fltb_irrefl|].
        apply fltb_asym, (increasing_head _ _ _ Inc1). cbn [nth].
        apply nth_In. simpl in Hi. lia. }
      rewrite linear_step, Q.
      apply IH; [exact Inc1|simpl in *; lia|simpl in *; lia].
Qed.

Lemma interp_at_breakpoint (time velocity : list F) (i : nat) :
  strictly_increasing time = true -> length time = length velocity ->
  i < length time ->
  exists f, interp1d time velocity = Ok f /\
            interp_call f (PyFloat (nth i time d)) = Ok (nth i velocity d).
Proof.
  intros Inc L Hi.
  destruct time as [|x0 xs]; [simpl in Hi; lia|].
  unfold interp1d. rewrite L, Nat.eqb_refl.
  eexists; split; [reflexivity|].
  unfold interp_call. cbn [as_float rbind xp fp].
  rewrite fold_fmin_first
    by (intros y I; apply fltb_asym, (increasing_head _ _ _ Inc I)).
  assert (Lo : fltb (nth i (x0 :: xs) d) x0 = false).
  { destruct i as [|i]; [apply fltb_irrefl|].
    apply fltb_asym, (increasing_head _ _ _ Inc). cbn [nth].
    apply nth_In. simpl in Hi. lia. }
  assert (Up : fltb (fold_left fmax xs x0) (nth i (x0 :: xs) d) = false).
  { destruct (fold_fmax_upper x0 xs (nth i (x0 :: xs) d) Inc) as [E|E].
    - destruct i as [|i]; [left; left; reflexivity|].
      right. cbn [nth]. apply nth_In. simpl in Hi. lia.
    - rewrite <- E. apply fltb_irrefl.
    - now apply fltb_asym. }
  rewrite Lo, Up. cbn [orb].
  now rewrite linear_at_breakpoint.
Qed.

End OrderedBreakpoints.

Section Binary64Interpolation.
Variables libm_sin libm_cos : spec_float -> spec_float.
Variable py_repr : spec_float -> string.
Local Abbreviation ops := (Binary64 libm_sin libm_cos py_repr).

(** C5: for breakpoints with strictly increasing times, the interpolant
    evaluated exactly at the breakpoint time t_i returns exactly
    speed[i]. *)
Theorem interpolation_at_breakpoint (time velocity : list spec_float) (i : nat) :
  @strictly_increasing _ ops time = true ->
  length time = length velocity -> i < length time ->
  exists f, interp1d time velocity = Ok f /\
            @interp_call _ ops f (PyFloat (nth i time S754_nan))
            = Ok (nth i velocity S754_nan).
Proof.
  apply (@interp_at_breakpoint _ ops).
  - exact SFltb_trans.
  - exact SFltb_asym.
  - intros a b L. apply SFeqb_refl.
    now apply SFltb_not_nan in L.
Qed.

End Binary64Interpolation.

Lemma interpolation_at_breakpoint_witness :
  @strictly_increasing _ Demo.b64 Demo.t2 = true /\
  length Demo.t2 = length Demo.v2 /\ 1 < length Demo.t2 /\
  exists f, interp1d Demo.t2 Demo.v2 = Ok f /\
            @interp_call _ Demo.b64 f (PyFloat (nth 1 Demo.t2 S754_nan))
            = Ok (nth 1 Demo.v2 S754_nan).
Proof.
  split; [vm_compute; reflexivity|]. split; [reflexivity|].
  split; [simpl; lia|].
  apply (interpolation_at_breakpoint Libm.sin Libm.cos
           Demo.repr_small Demo.t2 Demo.v2 1);
    [vm_compute; reflexivity|reflexivity|simpl; lia].
Defined.

(** ** Queries, the log and the console *)

Section QueryFacts.
Context {F : Type} `{Float64 F}.

Lemma interpolate_src_velocity_ok (time velocity : list F) (q : pyobject F)
    (f : interpolant) (v : F) (w : world F) :
  interp1d time velocity = Ok f -> interp_call f q = Ok v ->
  interpolate_src_velocity time velocity q w
  = (Ok PyNone,
     {| disk := disk w;
        stdout_txt := (stdout_txt w ++ report q v)%string;
        console := (console w ++ report q v ++ nl)%string |}).
Proof.
  intros Ef Ev. unfold interpolate_src_velocity, iobind, lift.
  rewrite Ef, Ev. reflexivity.
Qed.

Lemma interpolate_src_velocity_inv (time velocity : list F) (q : pyobject F)
    (w w' : world F) (r : pyobject F) :
  interpolate_src_velocity time velocity q w = (Ok r, w') ->
  exists f v, interp1d time velocity = Ok f /\ interp_call f q = Ok v.
Proof.
  unfold interpolate_src_velocity, iobind, lift.
  destruct (interp1d time velocity) as [f|e]; [|discriminate].
  destruct (interp_call f q) as [v|e] eqn:Ev; [|discriminate].
  intros _. exists f, v. split; [reflexivity|exact Ev].
Qed.

(** A query that raises leaves the log and the console as they were. *)
Lemma interpolate_src_velocity_raise (time velocity : list F) (q : pyobject F)
    (w w' : world F) (e : exn) :
  interpolate_src_velocity time velocity q w = (Raise e, w') -> w' = w.
Proof.
  unfold interpolate_src_velocity, iobind, lift.
  destruct (interp1d time velocity) as [f|e1]; [|congruence].
  destruct (interp_call f q) as [v|e2]; [|congruence].
  discriminate.
Qed.

(** C7: a successful query appends to 'stdout.txt' exactly
    newline, [Velocity(time=<time_request>seconds) = <value> m/s], newline,
    with [str] of the query time and of the interpolated speed, and prints
    the same string on standard output. *)
Theorem report_appended_and_printed (time velocity : list F)
    (time_request : pyobject F) (w w' : world F) (r : pyobject F) :
  interpolate_src_velocity time velocity time_request w = (Ok r, w') ->
  exists f value,
    interp1d time velocity = Ok f /\ interp_call f time_request = Ok value /\
    let output :=
      (nl ++ "Velocity(time=" ++ str time_request ++ "seconds) = "
          ++ float_repr value ++ " m/s" ++ nl)%string in
    stdout_txt w' = (stdout_txt w ++ output)%string /\
    console w' = (console w ++ output ++ nl)%string /\
    disk w' = disk w.
Proof.
  intros E.
  destruct (interpolate_src_velocity_inv _ _ _ _ _ _ E) as (f & v & Ef & Ev).
  rewrite (interpolate_src_velocity_ok _ _ _ _ _ w Ef Ev) in E.
  injection E as _ <-. exists f, v. repeat split; assumption.
Qed.

(** C4: a query time strictly below the least or strictly above the
    greatest breakpoint time raises [DomainError], which the query function
    lets through, and nothing is written to the log (nor printed). *)
Theorem out_of_range_query (t0 : F) (ts velocity : list F)
    (time_request : pyobject F) (q : F) (w : world F) :
  length (t0 :: ts) = length velocity ->
  as_float time_request = Ok q ->
  fltb q (fold_left fmin ts t0) = true \/
  fltb (fold_left fmax ts t0) q = true ->
  interpolate_src_velocity (t0 :: ts) velocity time_request w
  = (Raise DomainError, w).
Proof.
  intros L Eq Out.
  unfold interpolate_src_velocity, iobind, lift, interp1d.
  rewrite L, Nat.eqb_refl. unfold interp_call. rewrite Eq.
  cbn [rbind xp].
  replace (fltb q (fold_left fmin ts t0) || fltb (fold_left fmax ts t0) q)
    with true; [reflexivity|].
  symmetry. apply orb_true_iff. exact Out.
Qed.

(** C6: on every file and query time, [interpolate_new_velocity] gives the
    same result, the same log and the same console output as running the
    Loader, the Converter and the Estimator and then calling
    [interpolate_src_velocity] on the resulting series. *)
Theorem new_velocity_is_pipeline_then_src (filename : string)
    (time_request : pyobject F) (w : world F) :
  interpolate_new_velocity filename time_request w
  = pipeline_then_src filename time_request w.
Proof.
  unfold interpolate_new_velocity, pipeline_then_src,
    interpolate_src_velocity, load_data, iobind, lift.
  destruct (pd_read_csv filename w) as [[df|e] w1]; [|reflexivity].
  destruct (getattr df "latitude") as [lat|e]; [|reflexivity].
  destruct (getattr df "longitude") as [lon|e]; [|reflexivity].
  destruct (getattr df "altitude") as [alt|e]; [|reflexivity].
  destruct (lla_to_ecef lat lon alt) as [[X Y] Z].
  destruct (getattr df "time") as [t|e]; [|reflexivity].
  destruct (cal_ecef_velocity t X Y Z) as [V|e]; [|reflexivity].
  destruct (interp1d t V) as [f|e]; [|reflexivity].
  destruct (interp_call f time_request) as [y|e]; reflexivity.
Qed.

Lemma interpolate_new_velocity_None (filename : string)
    (q : pyobject F) (w : world F) (r : pyobject F) :
  fst (interpolate_new_velocity filename q w) = Ok r -> r = PyNone.
Proof.
  unfold interpolate_new_velocity, load_data, iobind, lift.
  destruct (pd_read_csv filename w) as [[df|e] w1]; [|discriminate].
  destruct (getattr df "latitude") as [lat|e]; [|discriminate].
  destruct (getattr df "longitude") as [lon|e]; [|discriminate].
  destruct (getattr df "altitude") as [alt|e]; [|discriminate].
  destruct (lla_to_ecef lat lon alt) as [[X Y] Z].
  destruct (getattr df "time") as [t|e]; [|discriminate].
  destruct (cal_ecef_velocity t X Y Z) as [V|e]; [|discriminate].
  destruct (interp1d t V) as [f|e]; [|discriminate].
  destruct (interp_call f q) as [y|e]; [|discriminate].
  cbn. congruence.
Qed.

Lemma interpolate_src_velocity_None (time velocity : list F)
    (q : pyobject F) (w : world F) (r : pyobject F) :
  fst (interpolate_src_velocity time velocity q w) = Ok r -> r = PyNone.
Proof.
  unfold interpolate_src_velocity, iobind, lift.
  destruct (interp1d time velocity) as [f|e]; [|discriminate].
  destruct (interp_call f q) as [v|e]; [|discriminate].
  cbn. congruence.
Qed.

(** C10: whatever either query function returns is [None]; the
    interpolated speed only reaches the console and the log. *)
Theorem queries_return_None (time velocity : list F) (filename : string)
    (time_request : pyobject F) (w : world F) (r : pyobject F) :
  fst (interpolate_src_velocity time velocity time_request w) = Ok r \/
  fst (interpolate_new_velocity filename time_request w) = Ok r ->
  r = PyNone.
Proof.
  intros [E|E].
  - exact (interpolate_src_velocity_None _ _ _ _ _ E).
  - exact (interpolate_new_velocity_None _ _ _ _ E).
Qed.

Lemma getattr_raise (df : DataFrame F) (name : string) (e : exn) :
  getattr df name = Raise e -> e = AttributeError.
Proof.
  unfold getattr. destruct (find _ df); [discriminate|congruence].
Qed.

Lemma missing_column_raises (df : DataFrame F) (filename : string)
    (q : pyobject F) (w : world F) :
  disk w filename = Table df -> has_required_columns df = false ->
  interpolate_new_velocity filename q w = (Raise AttributeError, w).
Proof.
  intros D M.
  unfold interpolate_new_velocity, load_data, iobind, lift, pd_read_csv.
  rewrite D. unfold has_required_columns in M. cbn [forallb] in M.
  unfold has_column in M.
  destruct (getattr df "latitude") as [lat|e] eqn:Elat;
    [|now rewrite (getattr_raise _ _ _ Elat)].
  destruct (getattr df "longitude") as [lon|e] eqn:Elon;
    [|now rewrite (getattr_raise _ _ _ Elon)].
  destruct (getattr df "altitude") as [alt|e] eqn:Ealt;
    [|now rewrite (getattr_raise _ _ _ Ealt)].
  destruct (lla_to_ecef lat lon alt) as [[X Y] Z].
  destruct (getattr df "time") as [t|e] eqn:Et;
    [|now rewrite (getattr_raise _ _ _ Et)].
  discriminate M.
Qed.

(** C8 (amended): a missing path makes the loader fail with
    [FileNotFoundError] and a file that is not tabular data with
    [ParserError]; a file that parses is returned as it is, whatever its
    columns, and a missing time, latitude, longitude or altitude column
    makes [interpolate_new_velocity] fail with [AttributeError] at the
    column access, before anything is logged. *)
Theorem load_data_outcome (filename : string) (w : world F) :
  match disk w filename with
  | Missing => load_data filename w = (Raise FileNotFoundError, w)
  | Garbled => load_data filename w = (Raise ParserError, w)
  | Table df =>
      load_data filename w = (Ok df, w) /\
      (has_required_columns df = false ->
       forall q, interpolate_new_velocity filename q w
                 = (Raise AttributeError, w))
  end.
Proof.
  destruct (disk w filename) as [| |df] eqn:D;
    unfold load_data, iobind, lift, pd_read_csv; rewrite D;
    try reflexivity.
  split; [reflexivity|]. intros M q. now apply missing_column_raises with df.
Qed.

End QueryFacts.

Lemma report_appended_and_printed_witness :
  let w := Demo.empty_world in
  let w' := snd (@interpolate_src_velocity _ Demo.b64 Demo.t2 Demo.v2
                   (PyInt 20) w) in
  @interpolate_src_velocity _ Demo.b64 Demo.t2 Demo.v2 (PyInt 20) w
  = (Ok PyNone, w') /\
  exists f value,
    interp1d Demo.t2 Demo.v2 = Ok f /\
    @interp_call _ Demo.b64 f (PyInt 20) = Ok value /\
    let output :=
      (nl ++ "Velocity(time=" ++ @str _ Demo.b64 (PyInt 20) ++ "seconds) = "
          ++ Demo.repr_small value ++ " m/s" ++ nl)%string in
    stdout_txt w' = (stdout_txt w ++ output)%string /\
    console w' = (console w ++ output ++ nl)%string /\
    disk w' = disk w.
Proof.
  intros w w'. split; [vm_compute; reflexivity|].
  apply (@report_appended_and_printed _ Demo.b64 Demo.t2 Demo.v2 (PyInt 20)
           w w' PyNone).
  vm_compute; reflexivity.
Defined.

Lemma out_of_range_query_witness :
  length (Demo.fl 10 :: [Demo.fl 20]) = length Demo.v2 /\
  @as_float _ Demo.b64 (PyInt 25) = Ok (Demo.fl 25) /\
  (@fltb _ Demo.b64 (Demo.fl 25)
     (fold_left (@fmin _ Demo.b64) [Demo.fl 20] (Demo.fl 10)) = true \/
   @fltb _ Demo.b64
     (fold_left (@fmax _ Demo.b64) [Demo.fl 20] (Demo.fl 10)) (Demo.fl 25)
   = true) /\
  @interpolate_src_velocity _ Demo.b64 (Demo.fl 10 :: [Demo.fl 20]) Demo.v2
    (PyInt 25) Demo.empty_world
  = (Raise DomainError, Demo.empty_world).
Proof.
  split; [reflexivity|]. split; [reflexivity|].
  split; [right; vm_compute; reflexivity|].
  apply (@out_of_range_query _ Demo.b64 (Demo.fl 10) [Demo.fl 20] Demo.v2
           (PyInt 25) (Demo.fl 25) Demo.empty_world);
    [reflexivity|reflexivity|right; vm_compute; reflexivity].
Defined.

Lemma queries_return_None_witness :
  (fst (@interpolate_src_velocity _ Demo.b64 Demo.t2 Demo.v2 (PyInt 20)
          Demo.empty_world) = Ok PyNone \/
   fst (@interpolate_new_velocity _ Demo.b64 "other.csv"%string (PyInt 20)
          Demo.empty_world) = Ok PyNone) /\
  @PyNone spec_float = PyNone.
Proof.
  split; [left; vm_compute; reflexivity|].
  apply (@queries_return_None _ Demo.b64 Demo.t2 Demo.v2 "other.csv"%string
           (PyInt 20) Demo.empty_world PyNone).
  left; vm_compute; reflexivity.
Defined.

(** C8, as stated, fails on a file that parses without the required
    columns: [load_data] returns the table instead of failing. *)
Lemma loader_contract_fails :
  ~ loader_contract Demo.other_world "other.csv"%string.
Proof.
  unfold loader_contract. intros C.
  destruct C as [E|E]; [vm_compute; reflexivity| |];
    vm_compute in E; discriminate E.
Qed.

Lemma load_data_outcome_witness :
  load_data "other.csv"%string Demo.other_world
  = (Ok Demo.other_table, Demo.other_world) /\
  has_required_columns Demo.other_table = false /\
  forall q, @interpolate_new_velocity _ Demo.b64 "other.csv"%string q Demo.other_world
            = (Raise AttributeError, Demo.other_world).
Proof.
  pose proof (@load_data_outcome _ Demo.b64 "other.csv"%string Demo.other_world) as O.
  cbn [disk Demo.other_world String.eqb Ascii.eqb Bool.eqb] in O.
  destruct O as [L M].
  split; [exact L|]. split; [reflexivity|]. apply M. reflexivity.
Defined.

(** The report of a query at the second breakpoint of the two samples. *)
Example report_of_query :
  stdout_txt (snd (@interpolate_src_velocity _ Demo.b64 Demo.t2 Demo.v2
                     (PyInt 20) Demo.empty_world))
  = (nl ++ "Velocity(time=20seconds) = 5.0 m/s" ++ nl)%string.
Proof. vm_compute. reflexivity. Qed.

(** ** The converter in binary64 *)

Section Binary64Converter.
Variables libm_sin libm_cos : spec_float -> spec_float.
Variable py_repr : spec_float -> string.
Local Abbreviation ops := (Binary64 libm_sin libm_cos py_repr).

(** The literals are the doubles [0x1.83fc4141c97d1p+22] and
    [0x1.921fb54442d18p+1]. *)
Example literal_B :
  @of_decimal _ ops 635675231424518 8
  = S754_finite false 6825510824613841 (-30).
Proof. vm_compute. reflexivity. Qed.

Example literal_pi :
  @np_pi _ ops = S754_finite false 7074237752028440 (-51).
Proof. vm_compute. reflexivity. Qed.

(** In binary64 the squared square root [E2 = E1 ** 2] is one unit in the
    last place above the quotient [(A**2 - B**2) / A**2] it comes from: the
    identity [E2 = (A^2 - B^2) / A^2] is one of real arithmetic. *)
Remark E2_binary64 :
  let e := B64.div (B64.sub (B64.of_Z (6378137 ^ 2))
                            (B64.mul (B64.of_dec 635675231424518 8)
                                     (B64.of_dec 635675231424518 8)))
                   (B64.of_Z (6378137 ^ 2)) in
  e = S754_finite false 7718094650643474 (-60) /\
  B64.mul (B64.sqrt e) (B64.sqrt e)
  = S754_finite false 7718094650643475 (-60).
Proof. vm_compute. split; reflexivity. Qed.

(** C9 (amended): at lat = 0, lon = 0, alt = 0 the converter returns
    X = 6378137.0, Y = 0, Z = 0; at lat = 90, lon = 0, alt = 0 it returns
    Y = 0, Z = 6356752.31424518 and X = 3.9186209248144711e-10, a
    rounding residue below 1e-9 and not 0: the double nearest pi/2 has a
    cosine of 6.1e-17. *)
Theorem lla_to_ecef_special_points :
  libm_at_special_points libm_sin libm_cos ->
  @lla_to_ecef _ ops [B64.of_Z 0] [B64.of_Z 0] [B64.of_Z 0]
  = ([B64.of_Z 6378137], [S754_zero false], [S754_zero false]) /\
  @lla_to_ecef _ ops [B64.of_Z 90] [B64.of_Z 0] [B64.of_Z 0]
  = ([pole_X], [S754_zero false], [B64.of_dec 635675231424518 8]) /\
  SFltb (S754_zero false) pole_X = true /\
  SFltb pole_X (B64.of_dec 1 9) = true.
Proof.
  intros (S0 & C0 & S1 & C1). unfold lla_to_ecef.
  cbn [map align2 of_int of_decimal np_pi fadd fsub fmul fdiv np_sqrt np_sin
       np_cos Binary64 fsquare].
  replace (B64.mul (B64.div (B64.of_dec 3141592653589793 15) (B64.of_Z 180))
                   (B64.of_Z 90))
    with half_pi64 by (vm_compute; reflexivity).
  replace (B64.mul (B64.div (B64.of_dec 3141592653589793 15) (B64.of_Z 180))
                   (B64.of_Z 0))
    with (S754_zero false) by (vm_compute; reflexivity).
  rewrite S0, C0, S1, C1. vm_compute. repeat split; reflexivity.
Qed.

End Binary64Converter.

(** The reference sine and cosine agree with the C library on well-known
    values: [sin 1 = 0.8414709848078965], [cos 1 = 0.5403023058681398],
    [sin 1e22 = -0.8522008497671888], [sin pi = 1.2246467991473532e-16]
    for the double [pi], and the four values at the special points. *)
Example libm_reference_values :
  Libm.sin (B64.of_Z 1) = S754_finite false 7579296827247854 (-53) /\
  Libm.cos (B64.of_Z 1) = S754_finite false 4866610526750348 (-53) /\
  Libm.sin (B64.of_Z (10 ^ 22)) = S754_finite true 7675942858912663 (-53) /\
  Libm.sin (B64.of_dec 3141592653589793 15)
  = S754_finite false 4967757600021511 (-105) /\
  libm_at_special_points Libm.sin Libm.cos.
Proof. vm_compute. repeat split; reflexivity. Qed.

Lemma lla_to_ecef_special_points_witness :
  libm_at_special_points Libm.sin Libm.cos /\
  @lla_to_ecef _ Demo.b64 [B64.of_Z 0] [B64.of_Z 0] [B64.of_Z 0]
  = ([B64.of_Z 6378137], [S754_zero false], [S754_zero false]) /\
  @lla_to_ecef _ Demo.b64 [B64.of_Z 90] [B64.of_Z 0] [B64.of_Z 0]
  = ([pole_X], [S754_zero false], [B64.of_dec 635675231424518 8]) /\
  SFltb (S754_zero false) pole_X = true /\
  SFltb pole_X (B64.of_dec 1 9) = true.
Proof.
  split; [vm_compute; repeat split; reflexivity|].
  apply (lla_to_ecef_special_points Libm.sin Libm.cos Demo.repr_small).
  vm_compute; repeat split; reflexivity.
Defined.

(** C9, as stated, fails at the pole: X is the residue [pole_X], which
    does not compare equal to 0. *)
Lemma special_points_claim_fails : ~ special_points_claim.
Proof.
  intros C.
  destruct (C Libm.sin Libm.cos Demo.repr_small) as [_ (x & y & z & E & X0 & _)].
  - vm_compute; repeat split; reflexivity.
  - vm_compute in E. injection E as <- _ _. vm_compute in X0. discriminate X0.
Qed.

(** ** The converter and the WGS84 formulas in binary64 *)

Section Binary64Formula.
Variables libm_sin libm_cos : spec_float -> spec_float.
Variable py_repr : spec_float -> string.
Local Abbreviation ops := (Binary64 libm_sin libm_cos py_repr).

(** C1 (amended): on three series of the same length N >= 1 the converter
    returns three series of length N, and at every index X, Y and Z are
    the float64 values of [(N+H) cos(lat) cos(lon)],
    [(N+H) cos(lat) sin(lon)] and [(N (1-E2) + H) sin(lat)], with the
    angles in radians, [H = 1000 alt], [N = A / sqrt (1 - E2 sin^2(lat))]
    and [E2 = E1^2] for [E1 = sqrt ((A^2-B^2)/A^2)], whatever sine and
    cosine the C library provides. *)
Theorem lla_to_ecef_formula (lat lon alt : list spec_float) :
  length lat = length lon -> length lat = length alt ->
  1 <= length lat ->
  let '(X, Y, Z) := @lla_to_ecef _ ops lat lon alt in
  length X = length lat /\ length Y = length lat /\ length Z = length lat /\
  forall i, i < length lat ->
    (nth i X S754_nan, nth i Y S754_nan, nth i Z S754_nan)
    = @wgs84_formula _ ops (@squared_E1 _ ops) (nth i lat S754_nan)
        (nth i lon S754_nan) (nth i alt S754_nan).
Proof.
  intros Elon Ealt _.
  pose proof (@lla_to_ecef_rows _ ops S754_nan lat lon alt Elon Ealt) as Rows.
  destruct (@lla_to_ecef _ ops lat lon alt) as [[X Y] Z].
  destruct Rows as (LX & LY & LZ & Rows).
  split; [exact LX|]. split; [exact LY|]. split; [exact LZ|].
  intros i Hi. rewrite (Rows i Hi). reflexivity.
Qed.

End Binary64Formula.

Lemma lla_to_ecef_formula_witness :
  let lat := [Demo.fl 45; sample_latitude] in
  let lon := [Demo.fl 10; Demo.fl 0] in
  let alt := [Demo.fl 2; Demo.fl 0] in
  length lat = length lon /\ length lat = length alt /\ 1 <= length lat /\
  let '(X, Y, Z) := @lla_to_ecef _ Demo.b64 lat lon alt in
  length X = length lat /\ length Y = length lat /\ length Z = length lat /\
  forall i, i < length lat ->
    (nth i X S754_nan, nth i Y S754_nan, nth i Z S754_nan)
    = @wgs84_formula _ Demo.b64 (@squared_E1 _ Demo.b64) (nth i lat S754_nan)
        (nth i lon S754_nan) (nth i alt S754_nan).
Proof.
  intros lat lon alt.
  split; [reflexivity|]. split; [reflexivity|]. split; [simpl; lia|].
  apply (lla_to_ecef_formula Libm.sin Libm.cos Demo.repr_small lat lon alt);
    [reflexivity|reflexivity|simpl; lia].
Defined.

(** The sample (81.15, 0, 0): its angle, the reference sine and cosine
    there, and the two eccentricity terms.  The code returns
    X = 984487.2482240124 and Z = 6280571.083683231, the formulas with the
    quotient give X = 984487.2482240122 and Z = 6280571.08368323. *)
Example sample_point_values :
  radians64 sample_latitude = sample_angle /\
  libm_at_sample_point Libm.sin Libm.cos /\
  @quotient_E2 _ Demo.b64 = S754_finite false 7718094650643474 (-60) /\
  @squared_E1 _ Demo.b64 = S754_finite false 7718094650643475 (-60) /\
  @lla_to_ecef _ Demo.b64 [sample_latitude] [Demo.fl 0] [Demo.fl 0]
  = ([S754_finite false 8456681068902335 (-33)], [S754_zero false],
     [S754_finite false 6743711851155689 (-30)]) /\
  @wgs84_formula _ Demo.b64 (@quotient_E2 _ Demo.b64) sample_latitude
    (Demo.fl 0) (Demo.fl 0)
  = (S754_finite false 8456681068902333 (-33), S754_zero false,
     S754_finite false 6743711851155688 (-30)).
Proof. vm_compute. repeat split; reflexivity. Qed.

(** C1, as stated, fails at (81.15, 0, 0): with the quotient for E2 the
    formulas give an X two units in the last place below the X of the
    code, which follows [E2 = E1^2], one unit above the quotient. *)
Lemma formula_claim_fails : ~ formula_claim.
Proof.
  intros C.
  assert (L : libm_at_sample_point Libm.sin Libm.cos)
    by (vm_compute; repeat split; reflexivity).
  pose proof (C Libm.sin Libm.cos Demo.repr_small L
                [sample_latitude] [Demo.fl 0] [Demo.fl 0]
                eq_refl eq_refl (le_n 1)) as C0.
  cbv zeta in C0.
  assert (E : @lla_to_ecef _ (Binary64 Libm.sin Libm.cos Demo.repr_small)
                [sample_latitude] [Demo.fl 0] [Demo.fl 0]
              = ([S754_finite false 8456681068902335 (-33)],
                 [S754_zero false],
                 [S754_finite false 6743711851155689 (-30)]))
    by (vm_compute; reflexivity).
  rewrite E in C0. destruct C0 as (_ & _ & _ & C0).
  specialize (C0 0 (le_n 1)). vm_compute in C0.
  destruct C0 as ([E0|E0] & _); discriminate E0.
Qed.

(** * Further properties of the code *)

(** ** Edge behaviour of the estimator *)

Section EstimatorEdges.
Context {F : Type} `{Float64 F}.
Variable d : F.

Lemma fold_step_raise (time position : list F) (l : list nat) (e : exn) :
  fold_left (calc_velocity_step time position) l (Raise e) = Raise e.
Proof. induction l as [|i l IH]; [reflexivity|exact IH]. Qed.

(** The iterations [1 .. k] succeed as long as [k] indexes both series. *)
Lemma calc_velocity_loop_ok (time position : list F) (k : nat) :
  k < length position -> k < length time \/ k = 0 ->
  exists v,
    fold_left (calc_velocity_step time position) (seq 1 k)
              (Ok (np_zeros (length position))) = Ok v /\
    length v = length position.
Proof.
  induction k as [|k IH]; intros Lp Lt.
  - exists (np_zeros (length position)). split; [reflexivity|apply repeat_length].
  - destruct IH as (v & E & Lv); [lia|lia|].
    rewrite seq_S, fold_left_app, E.
    change (1 + k) with (S k). cbn [fold_left].
    unfold calc_velocity_step. cbn [rbind].
    replace (S k - 1) with k by lia.
    rewrite !(getitem_nth d) by lia. cbn [rbind].
    destruct (setitem_spec d v (S k)
                (fdiv (fsub (nth (S k) position d) (nth k position d))
                      (fsub (nth (S k) time d) (nth k time d))))
      as (v' & E' & Lv' & _); [lia|].
    exists v'. split; [exact E'|congruence].
Qed.

Lemma getitem_out (s : list F) (i : nat) :
  length s <= i -> getitem s i = Raise KeyError.
Proof.
  intros L. unfold getitem.
  destruct (nth_error s i) eqn:E; [|reflexivity].
  assert (N : nth_error s i <> None) by congruence.
  apply nth_error_Some in N. lia.
Qed.

Lemma calc_velocity_step_out (time position v : list F) (j : nat) :
  1 <= j < length position -> length time <= j ->
  calc_velocity_step time position (Ok v) j = Raise KeyError.
Proof.
  intros Lj Lt. unfold calc_velocity_step. cbn [rbind].
  rewrite !(getitem_nth d) by lia. cbn [rbind].
  rewrite getitem_out by lia. reflexivity.
Qed.

Lemma calc_velocity_short_time (time position : list F) :
  2 <= length position -> length time < length position ->
  calc_velocity time position = Raise KeyError.
Proof.
  intros L2 Ls. unfold calc_velocity.
  set (n := length position) in *.
  set (j := Nat.max 1 (length time)).
  assert (Hj : 1 <= j < n) by (unfold j; lia).
  replace (n - 1) with ((j - 1) + (1 + (n - 1 - j))) by lia.
  rewrite seq_app, fold_left_app.
  destruct (calc_velocity_loop_ok time position (j - 1)) as (v & E & Lv);
    [fold n; lia|unfold j; lia|].
  fold n in E. rewrite E.
  replace (1 + (j - 1)) with j by lia.
  cbn [seq fold_left].
  change (1 + (n - 1 - j)) with (S (n - 1 - j)). cbn [seq fold_left].
  rewrite calc_velocity_step_out by (fold n; unfold j; lia).
  apply fold_step_raise.
Qed.

Lemma calc_velocity_outcome (time position : list F) :
  (exists v, calc_velocity time position = Ok v /\ length v = length position)
  \/ calc_velocity time position = Raise KeyError.
Proof.
  destruct (Nat.le_gt_cases (length position) (length time)) as [L|L].
  - left. destruct (calc_velocity_spec d time position L) as (v & E & Lv & _).
    now exists v.
  - destruct (Nat.le_gt_cases 2 (length position)) as [L2|L2].
    + right. now apply calc_velocity_short_time.
    + left. destruct position as [|p [|q position]]; [| |simpl in L2; lia].
      * exists []. split; reflexivity.
      * exists [of_int 0]. split; reflexivity.
Qed.

(** A component with two or more samples that the time series does not
    cover makes the loop read [time[i]] for a label the series lacks. *)
Lemma cal_ecef_velocity_short_time_raises (t x y z : list F) :
  (2 <= length x /\ length t < length x) \/
  (2 <= length y /\ length t < length y) \/
  (2 <= length z /\ length t < length z) ->
  cal_ecef_velocity t x y z = Raise KeyError.
Proof.
  intros Bad. unfold cal_ecef_velocity, velocity_components.
  destruct (calc_velocity_outcome t x) as [(vx & Ex & _)|Ex]; rewrite Ex;
    [|reflexivity].
  cbn [rbind].
  destruct (calc_velocity_outcome t y) as [(vy & Ey & _)|Ey]; rewrite Ey;
    [|reflexivity].
  cbn [rbind].
  destruct (calc_velocity_outcome t z) as [(vz & Ez & _)|Ez]; rewrite Ez;
    [|reflexivity].
  exfalso.
  destruct Bad as [[L2 Ls]|[[L2 Ls]|[L2 Ls]]].
  - rewrite (calc_velocity_short_time t x L2 Ls) in Ex. discriminate.
  - rewrite (calc_velocity_short_time t y L2 Ls) in Ey. discriminate.
  - rewrite (calc_velocity_short_time t z L2 Ls) in Ez. discriminate.
Qed.
End EstimatorEdges.

Section EstimatorShapes.
Context {F : Type} `{Float64 F}.
Variable d : F.

Lemma np_binop_mismatch (f : F -> F -> F) (a b : list F) :
  length a <> length b -> length a <> 1 -> length b <> 1 ->
  np_binop f a b = Raise ValueError.
Proof.
  intros Nab Na Nb. unfold np_binop.
  destruct (Nat.eqb_spec (length a) (length b)) as [E|_]; [contradiction|].
  destruct a as [|a0 [|a1 a]], b as [|b0 [|b1 b]]; simpl in *;
    try reflexivity; congruence.
Qed.

Lemma np_binop_broadcast_r (f : F -> F -> F) (a : list F) (b0 : F) :
  length a <> 1 -> np_binop f a [b0] = Ok (map (fun x => f x b0) a).
Proof.
  intros Na. unfold np_binop.
  destruct a as [|a0 [|a1 a]]; simpl in *; try reflexivity; congruence.
Qed.

(** X2: component series that are all covered by the time series but
    differ in length, none of the two being a single sample, make the
    estimator raise [ValueError]: the arrays of squared velocities do not
    broadcast. *)
Theorem cal_ecef_velocity_ragged (t x y z : list F) :
  length x <= length t -> length y <= length t -> length z <= length t ->
  (length x <> length y /\ length x <> 1 /\ length y <> 1) \/
  (length x = length y /\ length z <> length x /\
   length x <> 1 /\ length z <> 1) ->
  cal_ecef_velocity t x y z = Raise ValueError.
Proof.
  intros Lx Ly Lz Ragged.
  destruct (calc_velocity_spec d t x Lx) as (vx & Ex & Hx & _).
  destruct (calc_velocity_spec d t y Ly) as (vy & Ey & Hy & _).
  destruct (calc_velocity_spec d t z Lz) as (vz & Ez & Hz & _).
  unfold cal_ecef_velocity, velocity_components.
  rewrite Ex, Ey, Ez. cbn [rbind app].
  destruct Ragged as [(Nxy & Nx & Ny)|(Exy & Nzx & Nx & Nz)].
  - rewrite np_binop_mismatch by (rewrite !length_map; lia). reflexivity.
  - rewrite np_binop_same_length by (rewrite !length_map; lia). cbn [rbind].
    rewrite np_binop_mismatch; [reflexivity|..];
      rewrite ?zip_with_length, ?length_map; rewrite ?length_map; lia.
Qed.

(** X3: a component that is a single sample, beside two components of
    another common length, is not refused: its one velocity, 0, is
    broadcast, and the speed is computed with a zero contribution of that
    component at every index. *)
Theorem cal_ecef_velocity_broadcast (t x z : list F) (y0 : F) :
  length x = length z -> length x <> 1 -> length x <= length t ->
  exists speed,
    cal_ecef_velocity t x [y0] z = Ok speed /\
    length speed = length x /\
    forall i, i < length x ->
      nth i speed d
      = np_sqrt (fadd (fadd (fsquare (component_velocity d t x i))
                            (fsquare (of_int 0)))
                      (fsquare (component_velocity d t z i))).
Proof.
  intros Exz Nx Lx.
  destruct (calc_velocity_spec d t x Lx) as (vx & Ex & Hx & Vx).
  destruct (calc_velocity_spec d t z) as (vz & Ez & Hz & Vz); [lia|].
  unfold cal_ecef_velocity, velocity_components.
  rewrite Ex, Ez.
  replace (calc_velocity t [y0]) with (Ok [of_int 0]) by reflexivity.
  cbn [rbind app map].
  rewrite np_binop_broadcast_r by (rewrite length_map; lia). cbn [rbind].
  rewrite np_binop_same_length by (rewrite !length_map; lia). cbn [rbind].
  eexists. split; [reflexivity|]. split.
  - rewrite length_map, zip_with_length; rewrite !length_map; lia.
  - intros i Hi.
    rewrite map_nth_in
      by (rewrite zip_with_length; rewrite !length_map; lia).
    rewrite (zip_with_nth d) by (rewrite ?length_map; lia).
    rewrite !map_nth_in by (rewrite ?length_map; lia).
    rewrite Vx, Vz by lia. reflexivity.
Qed.

Lemma component_velocity_firstn (n : nat) (t c : list F) (i : nat) :
  i < n ->
  component_velocity d (firstn n t) c i = component_velocity d t c i.
Proof.
  intros Hi. unfold component_velocity, backward_difference.
  destruct (Nat.eqb_spec i 0) as [_|N0]; [reflexivity|].
  rewrite !nth_firstn.
  destruct (Nat.ltb_spec i n); [|lia].
  destruct (Nat.ltb_spec (i - 1) n); [|lia]. reflexivity.
Qed.

(** X6: only the first N entries of the time series are read, N being
    the length of the components: any times after them change nothing. *)
Theorem cal_ecef_velocity_extra_times (t x y z : list F) :
  length x = length y -> length y = length z -> length x <= length t ->
  cal_ecef_velocity t x y z = cal_ecef_velocity (firstn (length x) t) x y z.
Proof.
  intros Exy Eyz Lx.
  destruct (cal_ecef_velocity_spec d t x y z Exy Eyz Lx) as (v & E & Lv & N).
  destruct (cal_ecef_velocity_spec d (firstn (length x) t) x y z Exy Eyz)
    as (v' & E' & Lv' & N'); [rewrite length_firstn; lia|].
  rewrite E, E'. f_equal.
  apply (nth_ext _ _ d d); [congruence|].
  intros i Hi. rewrite N, N' by lia.
  unfold speed_at.
  rewrite !component_velocity_firstn by lia. reflexivity.
Qed.
Lemma calc_velocity_covered (time position : list F) :
  length position <= 1 \/ length position <= length time ->
  exists v, calc_velocity time position = Ok v.
Proof.
  intros [L1|Lt].
  - destruct position as [|p [|q position]]; [| |simpl in L1; lia];
      eexists; reflexivity.
  - destruct (calc_velocity_spec d time position Lt) as (v & E & _).
    now exists v.
Qed.

Lemma np_binop_raise (f : F -> F -> F) (a b : list F) (e : exn) :
  np_binop f a b = Raise e -> e = ValueError.
Proof.
  unfold np_binop. destruct (Nat.eqb (length a) (length b)); [discriminate|].
  destruct a as [|a0 [|a1 a]], b as [|b0 [|b1 b]]; intros E;
    try discriminate E; now injection E.
Qed.

(** X1: the estimator raises [KeyError] exactly when some component
    series has two or more samples and the time series is shorter than
    it: the loop then reads [time[i]] for a label the series lacks. *)
Theorem cal_ecef_velocity_KeyError (t x y z : list F) :
  cal_ecef_velocity t x y z = Raise KeyError <->
  (2 <= length x /\ length t < length x) \/
  (2 <= length y /\ length t < length y) \/
  (2 <= length z /\ length t < length z).
Proof.
  split; [|apply cal_ecef_velocity_short_time_raises; exact d].
  intros E.
  destruct (Nat.le_gt_cases 2 (length x)) as [X2|X1];
    [destruct (Nat.le_gt_cases (length x) (length t)) as [Xt|Xt];
     [|left; lia]|].
  all: destruct (Nat.le_gt_cases 2 (length y)) as [Y2|Y1];
    [destruct (Nat.le_gt_cases (length y) (length t)) as [Yt|Yt];
     [|right; left; lia]|].
  all: destruct (Nat.le_gt_cases 2 (length z)) as [Z2|Z1];
    [destruct (Nat.le_gt_cases (length z) (length t)) as [Zt|Zt];
     [|right; right; lia]|].
  all: exfalso;
    destruct (calc_velocity_covered t x) as (vx & Ex); [lia|];
    destruct (calc_velocity_covered t y) as (vy & Ey); [lia|];
    destruct (calc_velocity_covered t z) as (vz & Ez); [lia|];
    unfold cal_ecef_velocity, velocity_components in E;
    rewrite Ex, Ey, Ez in E; cbn [rbind app] in E;
    destruct (np_binop fadd (map fsquare vx) (map fsquare vy)) as [s|e] eqn:E1;
    [cbn [rbind] in E;
     destruct (np_binop fadd s (map fsquare vz)) as [s'|e] eqn:E2;
     [discriminate E|apply np_binop_raise in E2; cbn [rbind] in E; congruence]
    |apply np_binop_raise in E1; cbn [rbind] in E; congruence].
Qed.

End EstimatorShapes.

(** ** Invariants of the estimator in binary64 *)

Lemma binary_round_aux_clear (m e : Z) (l : location) :
  sign_clear_or_nan (binary_round_aux B64.prec B64.emax false m e l) = true.
Proof.
  unfold binary_round_aux.
  destruct (shr_fexp _ _ m e l) as [mrs e'].
  destruct (shr_fexp _ _ _ e' loc_Exact) as [mrs' e''].
  destruct (shr_m mrs'); [reflexivity| |reflexivity].
  destruct (Z.leb _ _); reflexivity.
Qed.

Lemma square_sign_clear (a : spec_float) :
  sign_clear_or_nan (B64.mul a a) = true.
Proof.
  destruct a as [s|s| |s m e]; try reflexivity;
    try (destruct s; reflexivity).
  change (B64.mul (S754_finite s m e) (S754_finite s m e))
    with (binary_round_aux B64.prec B64.emax (xorb s s) (Zpos (m * m))
            (e + e) loc_Exact).
  rewrite xorb_nilpotent. apply binary_round_aux_clear.
Qed.

Lemma add_sign_clear (a b : spec_float) :
  sign_clear_or_nan a = true -> sign_clear_or_nan b = true ->
  sign_clear_or_nan (B64.add a b) = true.
Proof.
  destruct a as [sa|sa| |sa ma ea], b as [sb|sb| |sb mb eb];
    try destruct sa; try destruct sb; try discriminate; intros _ _;
    try reflexivity.
  change (B64.add (S754_finite false ma ea) (S754_finite false mb eb))
    with (binary_normalize B64.prec B64.emax
            (Zpos (fst (shl_align ma ea (Z.min ea eb)))
             + Zpos (fst (shl_align mb eb (Z.min ea eb))))
            (Z.min ea eb) false).
  cbn [Z.add]. unfold binary_normalize, binary_round.
  destruct (shl_align (_ + _) _ _) as [mz ez].
  apply binary_round_aux_clear.
Qed.

Lemma sqrt_sign_clear (a : spec_float) :
  sign_clear_or_nan a = true -> sign_clear_or_nan (B64.sqrt a) = true.
Proof.
  destruct a as [s|s| |s m e]; try destruct s; try discriminate; intros _;
    try reflexivity.
  change (B64.sqrt (S754_finite false m e))
    with (let '(mz, ez, lz) :=
            SFsqrt_core_binary B64.prec B64.emax (Zpos m) e in
          binary_round_aux B64.prec B64.emax false mz ez lz).
  destruct (SFsqrt_core_binary _ _ _ _) as [[mz ez] lz].
  apply binary_round_aux_clear.
Qed.

Lemma sub_self (c : spec_float) :
  zero_or_finite c = true -> B64.sub c c = S754_zero false.
Proof.
  destruct c as [s|s| |s m e]; try discriminate; intros _.
  - destruct s; reflexivity.
  - unfold B64.sub, SFsub. rewrite Z.sub_diag. reflexivity.
Qed.

Lemma zero_div (dt : spec_float) :
  B64.zero_or_nan dt = false ->
  exists s, B64.div (S754_zero false) dt = S754_zero s.
Proof.
  destruct dt as [s|s| |s m e]; try discriminate; intros _;
    eexists; reflexivity.
Qed.

Lemma np_binop_inv {F : Type} (f : F -> F -> F)
    (a b c : list F) :
  np_binop f a b = Ok c ->
  c = zip_with f a b \/
  (exists x, a = [x] /\ c = map (f x) b) \/
  (exists y, b = [y] /\ c = map (fun x => f x y) a).
Proof.
  unfold np_binop. destruct (Nat.eqb (length a) (length b)).
  - intros E. injection E as <-. now left.
  - destruct a as [|x [|x' a]], b as [|y [|y' b]]; intros E;
      try discriminate E; injection E as <-; right;
      first [left; eexists; split; reflexivity
            |right; eexists; split; reflexivity].
Qed.

Section Binary64Invariants.
Variables libm_sin libm_cos : spec_float -> spec_float.
Variable py_repr : spec_float -> string.
Local Abbreviation ops := (Binary64 libm_sin libm_cos py_repr).

Lemma np_binop_add_sign_clear (a b c : list spec_float) :
  Forall (fun v => sign_clear_or_nan v = true) a ->
  Forall (fun v => sign_clear_or_nan v = true) b ->
  @np_binop _ B64.add a b = Ok c ->
  Forall (fun v => sign_clear_or_nan v = true) c.
Proof.
  intros Fa Fb E.
  destruct (np_binop_inv _ _ _ _ E) as [->|[(x & -> & ->)|(y & -> & ->)]].
  - clear E. revert b Fb. induction Fa as [|x a Px Fa IH]; intros [|y b] Fb;
      cbn [zip_with]; try constructor.
    + inversion Fb; subst. now apply add_sign_clear.
    + apply IH. now inversion Fb.
  - apply Forall_forall. intros v I. apply in_map_iff in I.
    destruct I as (u & <- & I). apply add_sign_clear.
    + now inversion Fa.
    + exact (proj1 (Forall_forall _ _) Fb _ I).
  - apply Forall_forall. intros v I. apply in_map_iff in I.
    destruct I as (u & <- & I). apply add_sign_clear.
    + exact (proj1 (Forall_forall _ _) Fa _ I).
    + now inversion Fb.
Qed.

(** X4: whenever the estimator returns, no speed is negative and none is
    the negative zero: each is NaN or has a clear sign bit. *)
Theorem speeds_are_not_negative (t x y z speed : list spec_float) :
  @cal_ecef_velocity _ ops t x y z = Ok speed ->
  Forall (fun v => sign_clear_or_nan v = true) speed.
Proof.
  unfold cal_ecef_velocity.
  destruct (velocity_components t [x; y; z] []) as [v_xyz|e]; [|discriminate].
  cbn [rbind].
  destruct v_xyz as [|vx [|vy [|vz [|u v_xyz]]]]; try discriminate.
  assert (Sq : forall v : list spec_float,
             Forall (fun v => sign_clear_or_nan v = true)
                    (map (@fsquare _ ops) v)).
  { intros v. apply Forall_forall. intros u I. apply in_map_iff in I.
    destruct I as (w & <- & _). apply square_sign_clear. }
  destruct (np_binop fadd (map fsquare vx) (map fsquare vy)) as [s|e] eqn:E1;
    [|discriminate].
  cbn [rbind].
  destruct (np_binop fadd s (map fsquare vz)) as [s'|e] eqn:E2;
    [|discriminate].
  cbn [rbind]. intros E. injection E as <-.
  pose proof (np_binop_add_sign_clear _ _ _ (Sq vx) (Sq vy) E1) as Fs.
  pose proof (np_binop_add_sign_clear _ _ _ Fs (Sq vz) E2) as Fs'.
  apply Forall_forall. intros v I. apply in_map_iff in I.
  destruct I as (u & <- & I). apply sqrt_sign_clear.
  exact (proj1 (Forall_forall _ _) Fs' _ I).
Qed.

(** A single sample yields the speed series [0.0], and no sample an
    empty one, whatever the time series is, the empty one included: the
    loop body never runs and no time is read. *)
Lemma single_sample_speed (t : list spec_float) (x y z : spec_float) :
  @cal_ecef_velocity _ ops t [x] [y] [z] = Ok [S754_zero false] /\
  @cal_ecef_velocity _ ops t [] [] [] = Ok [].
Proof. split; reflexivity. Qed.

Lemma static_component (t : list spec_float) (c : spec_float) (n i : nat) :
  zero_or_finite c = true -> i < n ->
  B64.zero_or_nan (B64.sub (nth i t S754_nan) (nth (i - 1) t S754_nan)) = false
  \/ i = 0 ->
  B64.mul (@component_velocity _ ops S754_nan t (repeat c n) i)
          (@component_velocity _ ops S754_nan t (repeat c n) i)
  = S754_zero false.
Proof.
  intros Fc Hi Dt. unfold component_velocity, backward_difference.
  destruct (Nat.eqb_spec i 0) as [_|N0]; [reflexivity|].
  destruct Dt as [Dt|]; [|contradiction].
  rewrite !nth_repeat_lt by lia.
  cbn [fsub fdiv Binary64]. rewrite (sub_self c Fc).
  destruct (zero_div _ Dt) as (s & ->). destruct s; reflexivity.
Qed.

(** X5: when the three components stay at the same finite position and
    no difference of consecutive times is zero or NaN, every speed is
    exactly [+0]. *)
Theorem static_object_speed (t : list spec_float) (cx cy cz : spec_float)
    (n : nat) :
  zero_or_finite cx = true -> zero_or_finite cy = true ->
  zero_or_finite cz = true -> n <= length t ->
  (forall i, 1 <= i < n ->
     B64.zero_or_nan (B64.sub (nth i t S754_nan) (nth (i - 1) t S754_nan))
     = false) ->
  @cal_ecef_velocity _ ops t (repeat cx n) (repeat cy n) (repeat cz n)
  = Ok (repeat (S754_zero false) n).
Proof.
  intros Fx Fy Fz Ln Dt.
  destruct (@cal_ecef_velocity_spec _ ops S754_nan t
              (repeat cx n) (repeat cy n) (repeat cz n))
    as (speed & E & L & N); rewrite ?repeat_length; try lia.
  rewrite E. f_equal. rewrite repeat_length in L.
  apply (nth_ext _ _ S754_nan S754_nan); [now rewrite repeat_length|].
  intros i Hi. rewrite L in Hi.
  rewrite N by (rewrite repeat_length; exact Hi).
  rewrite nth_repeat_lt by exact Hi.
  unfold speed_at, fsquare. cbn [fmul fadd np_sqrt Binary64].
  assert (D : B64.zero_or_nan
                (B64.sub (nth i t S754_nan) (nth (i - 1) t S754_nan)) = false
              \/ i = 0)
    by (destruct i; [now right|left; apply Dt; lia]).
  rewrite !static_component by assumption. reflexivity.
Qed.
End Binary64Invariants.

(** ** Series of different lengths *)

Section RaggedSeries.
Context {F : Type} `{Float64 F}.

Lemma align2_length_max (f : F -> F -> F) (s1 s2 : list F) :
  length (align2 f s1 s2) = Nat.max (length s1) (length s2).
Proof.
  revert s2; induction s1 as [|a s1 IH]; intros [|b s2]; cbn [align2].
  - reflexivity.
  - now rewrite length_map.
  - now rewrite length_map.
  - cbn [length]. now rewrite IH.
Qed.

(** X and Y are as long as the longest of the three inputs, Z as long as
    the longer of latitude and altitude. *)
Lemma lla_to_ecef_lengths (lat lon alt : list F) :
  let '(X, Y, Z) := lla_to_ecef lat lon alt in
  length X = Nat.max (Nat.max (length lat) (length alt)) (length lon) /\
  length Y = Nat.max (Nat.max (length lat) (length alt)) (length lon) /\
  length Z = Nat.max (length lat) (length alt).
Proof.
  unfold lla_to_ecef.
  repeat split; rewrite !align2_length_max, !length_map; lia.
Qed.

Lemma map_nth_pad (g : F -> F) (d : F) (s : list F) (i : nat) :
  nth i (map g s) d = if i <? length s then g (nth i s d) else d.
Proof.
  destruct (Nat.ltb_spec i (length s)) as [L|L].
  - now apply map_nth_in.
  - apply nth_overflow. now rewrite length_map.
Qed.
End RaggedSeries.

Lemma add_nan_l (y : spec_float) : B64.add S754_nan y = S754_nan.
Proof. destruct y; reflexivity. Qed.
Lemma add_nan_r (x : spec_float) : B64.add x S754_nan = S754_nan.
Proof. destruct x; reflexivity. Qed.
Lemma mul_nan_l (y : spec_float) : B64.mul S754_nan y = S754_nan.
Proof. destruct y; reflexivity. Qed.
Lemma mul_nan_r (x : spec_float) : B64.mul x S754_nan = S754_nan.
Proof. destruct x; reflexivity. Qed.

Section Binary64Ragged.
Variables libm_sin libm_cos : spec_float -> spec_float.
Variable py_repr : spec_float -> string.
Local Abbreviation ops := (Binary64 libm_sin libm_cos py_repr).

(** With NaN as the value of a missing label, an aligned NaN-propagating
    operation acts on the padded series index by index. *)
Lemma align2_nth_nan (f : spec_float -> spec_float -> spec_float)
    (s1 s2 : list spec_float) (i : nat) :
  (forall y, f S754_nan y = S754_nan) -> (forall x, f x S754_nan = S754_nan) ->
  nth i (@align2 _ ops f s1 s2) S754_nan
  = f (nth i s1 S754_nan) (nth i s2 S754_nan).
Proof.
  intros Nl Nr. revert s2 i.
  induction s1 as [|a s1 IH]; intros [|b s2] i; cbn [align2].
  - destruct i; cbn; now rewrite Nl.
  - rewrite map_nth_pad. cbn [np_nan Binary64].
    destruct (i <? length (b :: s2)); destruct i; cbn [nth]; now rewrite Nl.
  - rewrite map_nth_pad. cbn [np_nan Binary64].
    destruct (i <? length (a :: s1)); destruct i; cbn [nth]; now rewrite Nr.
  - destruct i as [|i]; [reflexivity|]. cbn [nth]. apply IH.
Qed.

Lemma lla_to_ecef_ragged_rows (lat lon alt : list spec_float) (i : nat) :
  let '(X, Y, Z) := @lla_to_ecef _ ops lat lon alt in
  let '(x, y, z) := @ecef_row _ ops (nth i lat S754_nan) (nth i lon S754_nan)
                      (nth i alt S754_nan) in
  let has (s : list spec_float) := i <? length s in
  nth i X S754_nan = (if has lat && has lon && has alt then x else S754_nan) /\
  nth i Y S754_nan = (if has lat && has lon && has alt then y else S754_nan) /\
  nth i Z S754_nan = (if has lat && has alt then z else S754_nan).
Proof.
  unfold lla_to_ecef, ecef_row.
  cbn [fadd fmul Binary64].
  rewrite !align2_nth_nan
    by first [exact add_nan_l|exact add_nan_r|exact mul_nan_l|exact mul_nan_r].
  rewrite !map_nth_pad, !length_map.
  destruct (i <? length lat), (i <? length lon), (i <? length alt);
    cbn [andb]; repeat split;
    rewrite ?add_nan_l, ?add_nan_r, ?mul_nan_l, ?mul_nan_r; try reflexivity.
Qed.
(** X8: the converter accepts series of different lengths.  X and Y are
    as long as the longest of the three inputs and Z as long as the longer
    of latitude and altitude; in binary64, at an index that all three
    inputs have, X, Y and Z are the row of that index, and at an index
    that latitude, longitude or altitude lacks, X and Y are NaN, Z being
    NaN where latitude or altitude lacks it. *)
Theorem lla_to_ecef_ragged (lat lon alt : list spec_float) :
  let '(X, Y, Z) := @lla_to_ecef _ ops lat lon alt in
  (length X = Nat.max (Nat.max (length lat) (length alt)) (length lon) /\
   length Y = Nat.max (Nat.max (length lat) (length alt)) (length lon) /\
   length Z = Nat.max (length lat) (length alt)) /\
  forall i,
    let '(x, y, z) := @ecef_row _ ops (nth i lat S754_nan)
                        (nth i lon S754_nan) (nth i alt S754_nan) in
    let has (s : list spec_float) := i <? length s in
    nth i X S754_nan
    = (if has lat && has lon && has alt then x else S754_nan) /\
    nth i Y S754_nan
    = (if has lat && has lon && has alt then y else S754_nan) /\
    nth i Z S754_nan = (if has lat && has alt then z else S754_nan).
Proof.
  pose proof (@lla_to_ecef_lengths _ ops lat lon alt) as L.
  pose proof (lla_to_ecef_ragged_rows lat lon alt) as Rows.
  destruct (@lla_to_ecef _ ops lat lon alt) as [[X Y] Z].
  split; [exact L|exact Rows].
Qed.

End Binary64Ragged.

(** ** Mirror symmetries of the converter in binary64 *)

Lemma binary_round_aux_opp (s : bool) (m e : Z) (l : location) :
  binary_round_aux B64.prec B64.emax (negb s) m e l
  = SFopp (binary_round_aux B64.prec B64.emax s m e l).
Proof.
  unfold binary_round_aux.
  destruct (shr_fexp _ _ m e l) as [mrs e'].
  destruct (shr_fexp _ _ _ e' loc_Exact) as [mrs' e''].
  destruct (shr_m mrs'); [reflexivity| |reflexivity].
  destruct (Z.leb _ _); reflexivity.
Qed.

Lemma mul_opp_r (a b : spec_float) :
  B64.mul a (SFopp b) = SFopp (B64.mul a b).
Proof.
  destruct a as [sa|sa| |sa ma ea], b as [sb|sb| |sb mb eb];
    try reflexivity; try (destruct sa, sb; reflexivity).
  change (B64.mul (S754_finite sa ma ea) (SFopp (S754_finite sb mb eb)))
    with (binary_round_aux B64.prec B64.emax (xorb sa (negb sb))
            (Zpos (ma * mb)) (ea + eb) loc_Exact).
  change (B64.mul (S754_finite sa ma ea) (S754_finite sb mb eb))
    with (binary_round_aux B64.prec B64.emax (xorb sa sb)
            (Zpos (ma * mb)) (ea + eb) loc_Exact).
  rewrite <- binary_round_aux_opp. f_equal. destruct sa, sb; reflexivity.
Qed.

Lemma mul_opp_l (a b : spec_float) :
  B64.mul (SFopp a) b = SFopp (B64.mul a b).
Proof.
  destruct a as [sa|sa| |sa ma ea], b as [sb|sb| |sb mb eb];
    try reflexivity; try (destruct sa, sb; reflexivity).
  change (B64.mul (SFopp (S754_finite sa ma ea)) (S754_finite sb mb eb))
    with (binary_round_aux B64.prec B64.emax (xorb (negb sa) sb)
            (Zpos (ma * mb)) (ea + eb) loc_Exact).
  change (B64.mul (S754_finite sa ma ea) (S754_finite sb mb eb))
    with (binary_round_aux B64.prec B64.emax (xorb sa sb)
            (Zpos (ma * mb)) (ea + eb) loc_Exact).
  rewrite <- binary_round_aux_opp. f_equal. destruct sa, sb; reflexivity.
Qed.

Lemma SFopp_involutive (a : spec_float) : SFopp (SFopp a) = a.
Proof. destruct a as [s|s| |s m e]; cbn; now rewrite ?negb_involutive. Qed.

Lemma square_opp (a : spec_float) : B64.mul (SFopp a) (SFopp a) = B64.mul a a.
Proof. now rewrite mul_opp_l, mul_opp_r, SFopp_involutive. Qed.

Section Binary64Mirror.
Variables libm_sin libm_cos : spec_float -> spec_float.
Variable py_repr : spec_float -> string.
Local Abbreviation ops := (Binary64 libm_sin libm_cos py_repr).

Lemma align2_mul_opp_r (a b : list spec_float) :
  @align2 _ ops B64.mul a (map SFopp b)
  = map SFopp (@align2 _ ops B64.mul a b).
Proof.
  revert b; induction a as [|x a IH]; intros [|y b]; cbn [align2 map].
  - reflexivity.
  - f_equal. rewrite !map_map. reflexivity.
  - f_equal. rewrite !map_map. reflexivity.
  - now rewrite mul_opp_r, IH.
Qed.

(** X15: in binary64, negating the latitudes negates Z bit for bit and
    leaves X and Y unchanged, provided the C library's sine is odd and
    its cosine even at the angles of the latitudes. *)
Theorem lla_to_ecef_mirror_latitude (lat lon alt : list spec_float) :
  Forall (fun l => libm_sin (SFopp (radians64 l)) = SFopp (libm_sin (radians64 l))
                   /\ libm_cos (SFopp (radians64 l)) = libm_cos (radians64 l))
         lat ->
  @lla_to_ecef _ ops (map SFopp lat) lon alt
  = (let '(X, Y, Z) := @lla_to_ecef _ ops lat lon alt in (X, Y, map SFopp Z)).
Proof.
  intros Sym. unfold lla_to_ecef.
  cbn [fadd fsub fmul fdiv np_sin np_cos np_sqrt np_pi of_int of_decimal
       Binary64].
  fold radians64.
  assert (Ecos : map libm_cos (map radians64 (map SFopp lat))
                 = map libm_cos (map radians64 lat)).
  { rewrite !map_map. apply map_ext_in. intros l I.
    unfold radians64 at 1. rewrite mul_opp_r. fold (radians64 l).
    exact (proj2 (proj1 (Forall_forall _ _) Sym l I)). }
  assert (Esin : map libm_sin (map radians64 (map SFopp lat))
                 = map SFopp (map libm_sin (map radians64 lat))).
  { rewrite !map_map. apply map_ext_in. intros l I.
    unfold radians64 at 1. rewrite mul_opp_r. fold (radians64 l).
    exact (proj1 (proj1 (Forall_forall _ _) Sym l I)). }
  rewrite Ecos, Esin.
  assert (Esq : map (@fsquare _ ops) (map SFopp (map libm_sin (map radians64 lat)))
                = map (@fsquare _ ops) (map libm_sin (map radians64 lat))).
  { rewrite (map_map SFopp). apply map_ext. intros a. apply square_opp. }
  rewrite Esq. rewrite align2_mul_opp_r. reflexivity.
Qed.

(** X16: in binary64, negating the longitudes negates Y bit for bit and
    leaves X and Z unchanged, provided the C library's sine is odd and
    its cosine even at the angles of the longitudes. *)
Theorem lla_to_ecef_mirror_longitude (lat lon alt : list spec_float) :
  Forall (fun l => libm_sin (SFopp (radians64 l)) = SFopp (libm_sin (radians64 l))
                   /\ libm_cos (SFopp (radians64 l)) = libm_cos (radians64 l))
         lon ->
  @lla_to_ecef _ ops lat (map SFopp lon) alt
  = (let '(X, Y, Z) := @lla_to_ecef _ ops lat lon alt in (X, map SFopp Y, Z)).
Proof.
  intros Sym. unfold lla_to_ecef.
  cbn [fadd fsub fmul fdiv np_sin np_cos np_sqrt np_pi of_int of_decimal
       Binary64].
  fold radians64.
  assert (Ecos : map libm_cos (map radians64 (map SFopp lon))
                 = map libm_cos (map radians64 lon)).
  { rewrite !map_map. apply map_ext_in. intros l I.
    unfold radians64 at 1. rewrite mul_opp_r. fold (radians64 l).
    exact (proj2 (proj1 (Forall_forall _ _) Sym l I)). }
  assert (Esin : map libm_sin (map radians64 (map SFopp lon))
                 = map SFopp (map libm_sin (map radians64 lon))).
  { rewrite !map_map. apply map_ext_in. intros l I.
    unfold radians64 at 1. rewrite mul_opp_r. fold (radians64 l).
    exact (proj1 (proj1 (Forall_forall _ _) Sym l I)). }
  rewrite Ecos, Esin, align2_mul_opp_r. reflexivity.
Qed.
End Binary64Mirror.


(** ** The direction of time and of the axes *)

Lemma binary_normalize_opp (z e : Z) :
  binary_normalize B64.prec B64.emax (- z) e false
  = SFopp (binary_normalize B64.prec B64.emax z e false)
  \/ (z = 0%Z).
Proof.
  destruct z as [|p|p]; [right; reflexivity|left|left];
    cbn [Z.opp binary_normalize]; unfold binary_round;
    destruct (shl_align p e _) as [mz ez].
  - apply (binary_round_aux_opp false).
  - rewrite <- (binary_round_aux_opp true). reflexivity.
Qed.

Lemma sub_opp (a b : spec_float) :
  B64.sub (SFopp a) (SFopp b) = SFopp (B64.sub a b) \/
  (B64.sub (SFopp a) (SFopp b) = S754_zero false /\
   B64.sub a b = S754_zero false).
Proof.
  destruct a as [sa|sa| |sa ma ea], b as [sb|sb| |sb mb eb];
    try (left; reflexivity);
    try (destruct sa, sb; (left; reflexivity) || (right; split; reflexivity)).
  unfold B64.sub, SFsub. cbn [SFopp].
  set (ez := Z.min ea eb).
  set (p := Zpos (fst (shl_align ma ea ez))).
  set (q := Zpos (fst (shl_align mb eb ez))).
  replace (cond_Zopp (negb sa) p - cond_Zopp (negb sb) q)%Z
    with (- (cond_Zopp sa p - cond_Zopp sb q))%Z
    by (destruct sa, sb; cbn [cond_Zopp negb]; lia).
  destruct (binary_normalize_opp (cond_Zopp sa p - cond_Zopp sb q) ez)
    as [E|E]; [left; exact E|right].
  rewrite E. split; reflexivity.
Qed.

Lemma div_opp_r (a b : spec_float) :
  B64.div a (SFopp b) = SFopp (B64.div a b).
Proof.
  destruct a as [sa|sa| |sa ma ea], b as [sb|sb| |sb mb eb];
    try reflexivity; try (destruct sa, sb; reflexivity).
  unfold B64.div, SFdiv. cbn [SFopp].
  destruct (SFdiv_core_binary _ _ _ _ _ _) as [[mz ez] lz].
  rewrite <- binary_round_aux_opp. f_equal. destruct sa, sb; reflexivity.
Qed.

Lemma div_opp_l (a b : spec_float) :
  B64.div (SFopp a) b = SFopp (B64.div a b).
Proof.
  destruct a as [sa|sa| |sa ma ea], b as [sb|sb| |sb mb eb];
    try reflexivity; try (destruct sa, sb; reflexivity).
  unfold B64.div, SFdiv. cbn [SFopp].
  destruct (SFdiv_core_binary _ _ _ _ _ _) as [[mz ez] lz].
  rewrite <- binary_round_aux_opp. f_equal. destruct sa, sb; reflexivity.
Qed.

Section Binary64Direction.
Variables libm_sin libm_cos : spec_float -> spec_float.
Variable py_repr : spec_float -> string.
Local Abbreviation ops := (Binary64 libm_sin libm_cos py_repr).

(** The square of a backward difference does not see the sign of the
    time step. *)
Lemma square_difference_opp_time (t p : list spec_float) (i : nat) :
  i < length t ->
  @fsquare _ ops (@component_velocity _ ops S754_nan (map SFopp t) p i)
  = @fsquare _ ops (@component_velocity _ ops S754_nan t p i).
Proof.
  intros Hi. unfold component_velocity, backward_difference.
  destruct (Nat.eqb i 0); [reflexivity|].
  rewrite !(map_nth_in SFopp S754_nan) by lia.
  unfold fsquare. cbn [fsub fdiv fmul Binary64].
  destruct (sub_opp (nth i t S754_nan) (nth (i - 1) t S754_nan))
    as [E|[E E']]; rewrite E.
  - rewrite div_opp_r. apply square_opp.
  - rewrite E'. reflexivity.
Qed.

Lemma square_difference_opp_position (t p : list spec_float) (i : nat) :
  i < length p ->
  @fsquare _ ops (@component_velocity _ ops S754_nan t (map SFopp p) i)
  = @fsquare _ ops (@component_velocity _ ops S754_nan t p i).
Proof.
  intros Hi. unfold component_velocity, backward_difference.
  destruct (Nat.eqb i 0); [reflexivity|].
  rewrite !(map_nth_in SFopp S754_nan) by lia.
  unfold fsquare. cbn [fsub fdiv fmul Binary64].
  destruct (sub_opp (nth i p S754_nan) (nth (i - 1) p S754_nan))
    as [E|[E E']]; rewrite E.
  - rewrite div_opp_l. apply square_opp.
  - rewrite E'. reflexivity.
Qed.

(** X7: in binary64 the speeds do not depend on the direction of time
    nor on the orientation of the axes: negating every timestamp, or
    every position, leaves the speed series unchanged bit for bit. *)
Theorem speed_ignores_direction (t x y z : list spec_float) :
  length x = length y -> length y = length z -> length x <= length t ->
  @cal_ecef_velocity _ ops (map SFopp t) x y z
  = @cal_ecef_velocity _ ops t x y z /\
  @cal_ecef_velocity _ ops t (map SFopp x) (map SFopp y) (map SFopp z)
  = @cal_ecef_velocity _ ops t x y z.
Proof.
  intros Exy Eyz Hlen.
  destruct (@cal_ecef_velocity_spec _ ops S754_nan t x y z Exy Eyz Hlen)
    as (v & Ev & Lv & Nv).
  destruct (@cal_ecef_velocity_spec _ ops S754_nan (map SFopp t) x y z
              Exy Eyz) as (v1 & Ev1 & Lv1 & Nv1);
    [rewrite length_map; exact Hlen|].
  destruct (@cal_ecef_velocity_spec _ ops S754_nan t (map SFopp x)
              (map SFopp y) (map SFopp z)) as (v2 & Ev2 & Lv2 & Nv2);
    [rewrite !length_map; exact Exy|rewrite !length_map; exact Eyz
    |rewrite length_map; exact Hlen|].
  rewrite length_map in Lv2, Nv2.
  rewrite Ev, Ev1, Ev2. split; f_equal.
  - apply (nth_ext _ _ S754_nan S754_nan); [congruence|].
    intros i Hi. rewrite Nv1, Nv by lia. unfold speed_at.
    rewrite !square_difference_opp_time by lia. reflexivity.
  - apply (nth_ext _ _ S754_nan S754_nan); [congruence|].
    intros i Hi. rewrite Nv2, Nv by lia. unfold speed_at.
    rewrite !square_difference_opp_position by lia. reflexivity.
Qed.

End Binary64Direction.

(** ** The log across queries *)

Section LogFacts.
Context {F : Type} `{Float64 F}.

(** X13: the loop of [test_basic.py] over query times that all succeed
    leaves the world in which their reports were logged and printed one
    after the other, in the order of the queries. *)
Theorem query_loop_logs_in_order (time velocity : list F) (f : interpolant)
    (items : list (pyobject F)) (values : list F) (w : world F) :
  interp1d time velocity = Ok f ->
  Forall2 (fun item v => interp_call f item = Ok v) items values ->
  query_loop time velocity items w
  = (Ok tt, fold_left log_report (reports items values) w).
Proof.
  intros Ef Vs. revert w.
  induction Vs as [|item v items values Ev Vs IH]; intros w; [reflexivity|].
  cbn [query_loop]. unfold iobind at 1.
  rewrite (interpolate_src_velocity_ok _ _ _ _ _ w Ef Ev).
  rewrite IH. reflexivity.
Qed.

(** X14: when a query of the loop raises, the exception leaves the loop:
    the reports of the queries before it stay logged, and no later query
    is run. *)
Theorem query_loop_stops_at_failure (time velocity : list F) (f : interpolant)
    (served : list (pyobject F)) (values : list F) (bad : pyobject F)
    (rest : list (pyobject F)) (e : exn) (w : world F) :
  interp1d time velocity = Ok f ->
  Forall2 (fun item v => interp_call f item = Ok v) served values ->
  interp_call f bad = Raise e ->
  query_loop time velocity (served ++ bad :: rest) w
  = (Raise e, fold_left log_report (reports served values) w).
Proof.
  intros Ef Vs Eb. revert w.
  induction Vs as [|item v items values Ev Vs IH]; intros w.
  - cbn [app query_loop reports combine map fold_left].
    unfold iobind, interpolate_src_velocity, iobind, lift.
    rewrite Ef, Eb. reflexivity.
  - cbn [app query_loop]. unfold iobind at 1.
    rewrite (interpolate_src_velocity_ok _ _ _ _ _ w Ef Ev).
    rewrite IH. reflexivity.
Qed.
End LogFacts.

(** ** The properties at concrete inputs *)

Lemma cal_ecef_velocity_KeyError_witness :
  ((2 <= length Demo.x2 /\ length [Demo.fl 10] < length Demo.x2) \/
   (2 <= length Demo.y2 /\ length [Demo.fl 10] < length Demo.y2) \/
   (2 <= length Demo.z2 /\ length [Demo.fl 10] < length Demo.z2)) /\
  @cal_ecef_velocity _ Demo.b64 [Demo.fl 10] Demo.x2 Demo.y2 Demo.z2
  = Raise KeyError.
Proof.
  split; [left; simpl; lia|].
  apply (proj2 (@cal_ecef_velocity_KeyError _ Demo.b64 S754_nan
                  [Demo.fl 10] Demo.x2 Demo.y2 Demo.z2)).
  left; simpl; lia.
Defined.

Lemma cal_ecef_velocity_ragged_witness :
  length Demo.x3 <= length Demo.t3 /\ length Demo.y2 <= length Demo.t3 /\
  length Demo.z3 <= length Demo.t3 /\
  ((length Demo.x3 <> length Demo.y2 /\ length Demo.x3 <> 1 /\
    length Demo.y2 <> 1) \/
   (length Demo.x3 = length Demo.y2 /\ length Demo.z3 <> length Demo.x3 /\
    length Demo.x3 <> 1 /\ length Demo.z3 <> 1)) /\
  @cal_ecef_velocity _ Demo.b64 Demo.t3 Demo.x3 Demo.y2 Demo.z3
  = Raise ValueError.
Proof.
  split; [simpl; lia|]. split; [simpl; lia|]. split; [simpl; lia|].
  split; [left; simpl; lia|].
  apply (@cal_ecef_velocity_ragged _ Demo.b64 S754_nan
           Demo.t3 Demo.x3 Demo.y2 Demo.z3);
    [simpl; lia|simpl; lia|simpl; lia|left; simpl; lia].
Defined.

Lemma cal_ecef_velocity_broadcast_witness :
  length Demo.x3 = length Demo.z3 /\ length Demo.x3 <> 1 /\
  length Demo.x3 <= length Demo.t3 /\
  exists speed,
    @cal_ecef_velocity _ Demo.b64 Demo.t3 Demo.x3 [Demo.fl 1] Demo.z3
    = Ok speed /\
    length speed = length Demo.x3 /\
    forall i, i < length Demo.x3 ->
      nth i speed S754_nan
      = B64.sqrt
          (B64.add
             (B64.add
                (@fsquare _ Demo.b64
                   (@component_velocity _ Demo.b64 S754_nan Demo.t3 Demo.x3 i))
                (@fsquare _ Demo.b64 (B64.of_Z 0)))
             (@fsquare _ Demo.b64
                (@component_velocity _ Demo.b64 S754_nan Demo.t3 Demo.z3 i))).
Proof.
  split; [reflexivity|]. split; [simpl; lia|]. split; [simpl; lia|].
  apply (@cal_ecef_velocity_broadcast _ Demo.b64 S754_nan
           Demo.t3 Demo.x3 Demo.z3 (Demo.fl 1));
    [reflexivity|simpl; lia|simpl; lia].
Defined.

Lemma cal_ecef_velocity_extra_times_witness :
  length Demo.x2 = length Demo.y2 /\ length Demo.y2 = length Demo.z2 /\
  length Demo.x2 <= length Demo.t3 /\
  @cal_ecef_velocity _ Demo.b64 Demo.t3 Demo.x2 Demo.y2 Demo.z2
  = @cal_ecef_velocity _ Demo.b64 (firstn (length Demo.x2) Demo.t3)
      Demo.x2 Demo.y2 Demo.z2.
Proof.
  split; [reflexivity|]. split; [reflexivity|]. split; [simpl; lia|].
  apply (@cal_ecef_velocity_extra_times _ Demo.b64 S754_nan
           Demo.t3 Demo.x2 Demo.y2 Demo.z2);
    [reflexivity|reflexivity|simpl; lia].
Defined.

Lemma speeds_are_not_negative_witness :
  @cal_ecef_velocity _ Demo.b64 Demo.t2 Demo.x2 Demo.y2 Demo.z2
  = Ok [S754_zero false; Demo.fl 5] /\
  Forall (fun v => sign_clear_or_nan v = true) [S754_zero false; Demo.fl 5].
Proof.
  split; [vm_compute; reflexivity|].
  apply (speeds_are_not_negative Libm.sin Libm.cos Demo.repr_small
           Demo.t2 Demo.x2 Demo.y2 Demo.z2).
  vm_compute; reflexivity.
Defined.

Lemma static_object_speed_witness :
  zero_or_finite (Demo.fl 1) = true /\ zero_or_finite (Demo.fl 2) = true /\
  zero_or_finite (Demo.fl 3) = true /\ 3 <= length Demo.t3 /\
  (forall i, 1 <= i < 3 ->
     B64.zero_or_nan (B64.sub (nth i Demo.t3 S754_nan)
                              (nth (i - 1) Demo.t3 S754_nan)) = false) /\
  @cal_ecef_velocity _ Demo.b64 Demo.t3 (repeat (Demo.fl 1) 3)
    (repeat (Demo.fl 2) 3) (repeat (Demo.fl 3) 3)
  = Ok (repeat (S754_zero false) 3).
Proof.
  assert (Dt : forall i, 1 <= i < 3 ->
            B64.zero_or_nan (B64.sub (nth i Demo.t3 S754_nan)
                                     (nth (i - 1) Demo.t3 S754_nan)) = false).
  { intros i Hi. destruct i as [|[|[|i]]]; try lia; vm_compute; reflexivity. }
  split; [reflexivity|]. split; [reflexivity|]. split; [reflexivity|].
  split; [simpl; lia|]. split; [exact Dt|].
  apply (static_object_speed Libm.sin Libm.cos Demo.repr_small Demo.t3
           (Demo.fl 1) (Demo.fl 2) (Demo.fl 3) 3);
    [reflexivity|reflexivity|reflexivity|simpl; lia|exact Dt].
Defined.

Lemma speed_ignores_direction_witness :
  length Demo.x2 = length Demo.y2 /\ length Demo.y2 = length Demo.z2 /\
  length Demo.x2 <= length Demo.t2 /\
  @cal_ecef_velocity _ Demo.b64 (map SFopp Demo.t2) Demo.x2 Demo.y2 Demo.z2
  = @cal_ecef_velocity _ Demo.b64 Demo.t2 Demo.x2 Demo.y2 Demo.z2 /\
  @cal_ecef_velocity _ Demo.b64 Demo.t2 (map SFopp Demo.x2)
    (map SFopp Demo.y2) (map SFopp Demo.z2)
  = @cal_ecef_velocity _ Demo.b64 Demo.t2 Demo.x2 Demo.y2 Demo.z2.
Proof.
  split; [reflexivity|]. split; [reflexivity|]. split; [simpl; lia|].
  apply (speed_ignores_direction Libm.sin Libm.cos Demo.repr_small
           Demo.t2 Demo.x2 Demo.y2 Demo.z2);
    [reflexivity|reflexivity|simpl; lia].
Defined.

Lemma query_loop_logs_in_order_witness :
  let f := {| xp := Demo.t2; fp := Demo.v2 |} in
  let items := [PyInt 10; PyInt 20] in
  let values := [Demo.fl 0; Demo.fl 5] in
  interp1d Demo.t2 Demo.v2 = Ok f /\
  Forall2 (fun item v => @interp_call _ Demo.b64 f item = Ok v) items values /\
  @query_loop _ Demo.b64 Demo.t2 Demo.v2 items Demo.empty_world
  = (Ok tt, fold_left log_report (@reports _ Demo.b64 items values)
                      Demo.empty_world).
Proof.
  intros f items values.
  assert (Vs : Forall2 (fun item v => @interp_call _ Demo.b64 f item = Ok v)
                       items values)
    by (repeat constructor; vm_compute; reflexivity).
  split; [reflexivity|]. split; [exact Vs|].
  apply (@query_loop_logs_in_order _ Demo.b64 Demo.t2 Demo.v2 f items values
           Demo.empty_world); [reflexivity|exact Vs].
Defined.

Lemma query_loop_stops_at_failure_witness :
  let f := {| xp := Demo.t2; fp := Demo.v2 |} in
  interp1d Demo.t2 Demo.v2 = Ok f /\
  Forall2 (fun item v => @interp_call _ Demo.b64 f item = Ok v)
          [PyInt 10] [Demo.fl 0] /\
  @interp_call _ Demo.b64 f (PyInt 25) = Raise DomainError /\
  @query_loop _ Demo.b64 Demo.t2 Demo.v2
    ([PyInt 10] ++ PyInt 25 :: [PyInt 20]) Demo.empty_world
  = (Raise DomainError,
     fold_left log_report (@reports _ Demo.b64 [PyInt 10] [Demo.fl 0])
               Demo.empty_world).
Proof.
  intros f.
  assert (Vs : Forall2 (fun item v => @interp_call _ Demo.b64 f item = Ok v)
                       [PyInt 10] [Demo.fl 0])
    by (repeat constructor; vm_compute; reflexivity).
  split; [reflexivity|]. split; [exact Vs|].
  split; [vm_compute; reflexivity|].
  apply (@query_loop_stops_at_failure _ Demo.b64 Demo.t2 Demo.v2 f
           [PyInt 10] [Demo.fl 0] (PyInt 25) [PyInt 20] DomainError
           Demo.empty_world);
    [reflexivity|exact Vs|vm_compute; reflexivity].
Defined.

Lemma lla_to_ecef_mirror_latitude_witness :
  Forall (fun l => Libm.sin (SFopp (radians64 l))
                   = SFopp (Libm.sin (radians64 l))
                   /\ Libm.cos (SFopp (radians64 l)) = Libm.cos (radians64 l))
         [Demo.fl 45] /\
  @lla_to_ecef _ Demo.b64 (map SFopp [Demo.fl 45]) [Demo.fl 10] [Demo.fl 2]
  = (let '(X, Y, Z) :=
       @lla_to_ecef _ Demo.b64 [Demo.fl 45] [Demo.fl 10] [Demo.fl 2] in
     (X, Y, map SFopp Z)).
Proof.
  assert (Sym : Forall
            (fun l => Libm.sin (SFopp (radians64 l))
                      = SFopp (Libm.sin (radians64 l))
                      /\ Libm.cos (SFopp (radians64 l))
                         = Libm.cos (radians64 l))
            [Demo.fl 45])
    by (repeat constructor; vm_compute; reflexivity).
  split; [exact Sym|].
  apply (lla_to_ecef_mirror_latitude Libm.sin Libm.cos Demo.repr_small
           [Demo.fl 45] [Demo.fl 10] [Demo.fl 2] Sym).
Defined.

Lemma lla_to_ecef_mirror_longitude_witness :
  Forall (fun l => Libm.sin (SFopp (radians64 l))
                   = SFopp (Libm.sin (radians64 l))
                   /\ Libm.cos (SFopp (radians64 l)) = Libm.cos (radians64 l))
         [Demo.fl 10] /\
  @lla_to_ecef _ Demo.b64 [Demo.fl 45] (map SFopp [Demo.fl 10]) [Demo.fl 2]
  = (let '(X, Y, Z) :=
       @lla_to_ecef _ Demo.b64 [Demo.fl 45] [Demo.fl 10] [Demo.fl 2] in
     (X, map SFopp Y, Z)).
Proof.
  assert (Sym : Forall
            (fun l => Libm.sin (SFopp (radians64 l))
                      = SFopp (Libm.sin (radians64 l))
                      /\ Libm.cos (SFopp (radians64 l))
                         = Libm.cos (radians64 l))
            [Demo.fl 10])
    by (repeat constructor; vm_compute; reflexivity).
  split; [exact Sym|].
  apply (lla_to_ecef_mirror_longitude Libm.sin Libm.cos Demo.repr_small
           [Demo.fl 45] [Demo.fl 10] [Demo.fl 2] Sym).
Defined.
